(** * Recipe manager: a shallow embedding of [models.py] and [app.py]

    The development follows the two source files.  Python values are
    modelled as follows.

    - [str] is [string]; its characters are the code points 0..255.
    - [int] is [Z].
    - [float] is kept abstract: the class [PyNum] collects the float
      operations the program uses ([+], [*], [int / int], [round(x, 2)],
      truthiness, [float(str)], [int(str)]).  Every theorem holds for any
      implementation of them; [QNum] (exact rationals) is an instance used
      to run the program on concrete inputs.
    - a [dict] is an association list in insertion order (the aggregator
      reads the values back in that order).
    - an exception is a value of [exn]; a request handler returns
      [result A], and nothing is committed when it returns [inl].
    - the database is a pair of tables (lists of rows in insertion
      order); the ORM operations used by the handlers are functions on it.

    [to_dict] and the JSON listing, which only read the store, are left
    out. *)

From Stdlib Require Import ZArith QArith Qround List Bool Ascii String Lia.
From Stdlib Require Import DecimalString.
From Stdlib Require Import Permutation Sorted.
Import ListNotations.

Local Open Scope string_scope.
Local Open Scope Z_scope.

(** ** Python builtins on [str] *)

Module Py.

Definition code (c : ascii) : N := N_of_ascii c.

(** [c.lower()] on a code point below 256: A-Z and the Latin-1 capitals
    (0xC0-0xDE except the multiplication sign 0xD7) move up by 32. *)
Definition lower_char (c : ascii) : ascii :=
  let n := code c in
  if ((65 <=? n) && (n <=? 90))%N
     || ((192 <=? n) && (n <=? 222) && negb (n =? 215))%N
  then ascii_of_N (n + 32) else c.

Fixpoint lower (s : string) : string :=
  match s with
  | EmptyString => EmptyString
  | String c s' => String (lower_char c) (lower s')
  end.

(** [c.isspace()] on a code point below 256. *)
Definition is_space (c : ascii) : bool :=
  let n := code c in
  (((9 <=? n) && (n <=? 13)) || ((28 <=? n) && (n <=? 32))
   || (n =? 133) || (n =? 160))%N.

Fixpoint lstrip (s : string) : string :=
  match s with
  | EmptyString => EmptyString
  | String c s' => if is_space c then lstrip s' else s
  end.

Fixpoint rstrip (s : string) : string :=
  match s with
  | EmptyString => EmptyString
  | String c s' =>
      match rstrip s' with
      | EmptyString => if is_space c then EmptyString else String c EmptyString
      | r => String c r
      end
  end.

(** [s.strip()] *)
Definition strip (s : string) : string := rstrip (lstrip s).

(** [bool(s)] for a [str] *)
Definition truthy (s : string) : bool :=
  match s with EmptyString => false | _ => true end.

(** [bool(n)] for an optional [int] ([None] and [0] are falsy) *)
Definition truthy_int (n : option Z) : bool :=
  match n with Some v => negb (v =? 0) | None => false end.

(** [str(n)] for an [int] *)
Definition str (n : Z) : string :=
  DecimalString.NilZero.string_of_int (Z.to_int n).

(** [sorted(l, key=...)]: Python's sort is stable; [le] compares the keys.
    Insertion from the right, each element placed before the first
    element it is [le] to, gives the one stable result. *)
Section Sorted.
Context {A : Type} (le : A -> A -> bool).

Fixpoint insert (x : A) (l : list A) : list A :=
  match l with
  | [] => [x]
  | y :: l' => if le x y then x :: l else y :: insert x l'
  end.

Fixpoint sorted (l : list A) : list A :=
  match l with
  | [] => []
  | x :: l' => insert x (sorted l')
  end.
End Sorted.

(** A [dict]: association list in insertion order. *)
Section Dict.
Context {K V : Type} (eqb : K -> K -> bool).

Fixpoint get (k : K) (d : list (K * V)) : option V :=
  match d with
  | [] => None
  | (k', v) :: d' => if eqb k k' then Some v else get k d'
  end.

(** [d[k] = v]: replaces in place, or appends a new key *)
Fixpoint set (k : K) (v : V) (d : list (K * V)) : list (K * V) :=
  match d with
  | [] => [(k, v)]
  | (k', v') :: d' =>
      if eqb k k' then (k', v) :: d' else (k', v') :: set k v d'
  end.

Definition values (d : list (K * V)) : list V := map snd d.
Definition keys (d : list (K * V)) : list K := map fst d.
End Dict.

End Py.

(** ** Exceptions *)

Inductive exn : Type :=
| NotFound              (* get_or_404 *)
| BadRequestKeyError    (* request.form[...] on a missing field *)
| ValueError            (* int(...) / float(...) on a malformed string *)
| TypeError
| KeyError.

Definition result (A : Type) : Type := (exn + A)%type.

Definition ret {A} (a : A) : result A := inr a.
Definition raise {A} (e : exn) : result A := inl e.
Definition bind {A B} (m : result A) (k : A -> result B) : result B :=
  match m with inl e => inl e | inr a => k a end.

Notation "x <- m ;; k" := (bind m (fun x => k))
  (at level 61, m at next level, right associativity).

(** [[f(x) for x in l]] where [f] may raise *)
Fixpoint mapM {A B} (f : A -> result B) (l : list A) : result (list B) :=
  match l with
  | [] => ret []
  | x :: l' => y <- f x ;; ys <- mapM f l' ;; ret (y :: ys)
  end.

(** [for x in l: acc = f(acc, x)] where the body may raise *)
Fixpoint foldM {A B} (f : B -> A -> result B) (l : list A) (acc : B)
  : result B :=
  match l with
  | [] => ret acc
  | x :: l' => acc' <- f acc x ;; foldM f l' acc'
  end.

(** ** Python numbers

    [truediv a b] is [a / b] on two [int]s with [b] not zero; the
    handlers never divide by zero, and a quotient too large for a float
    is not considered.  [float_of_str] and [int_of_str] are the
    conversions [float(s)] and [int(s)], [None] standing for the
    [ValueError] they raise on a malformed string. *)

Class PyNum : Type := {
  float : Type;
  fzero : float;                         (* 0 *)
  fone : float;                          (* 1 *)
  fadd : float -> float -> float;        (* x + y *)
  fmul : float -> float -> float;        (* x * y *)
  truediv : Z -> Z -> float;             (* int / int, divisor not 0 *)
  round2 : float -> float;               (* round(x, 2) *)
  ftruthy : float -> bool;               (* bool(x) *)
  float_of_str : string -> option float; (* float(s); None: ValueError *)
  int_of_str : string -> option Z;       (* int(s); None: ValueError *)
  ftruthy_zero : ftruthy fzero = false
}.

(** ** models.py *)

(** The value returned by [Ingredient.scaled]: [{name, amount, unit}]. *)
Module Scaled.
Record t {N : PyNum} : Type := mk {
  name : string;
  amount : option float;
  unit : option string
}.
End Scaled.

Module Ingredient.
Record t {N : PyNum} : Type := mk {
  id : Z;
  recipe_id : Z;
  name : string;
  amount : option float;
  unit : option string
}.

(** [Ingredient.scaled(self, multiplier)] *)
Definition scaled {N : PyNum} (self : t) (multiplier : float) : Scaled.t :=
  {| Scaled.name := name self;
     Scaled.amount :=
       match amount self with
       | Some a =>
           if ftruthy a then Some (round2 (fmul a multiplier)) else None
       | None => None
       end;
     Scaled.unit := unit self |}.
End Ingredient.

Module Recipe.
Record t {N : PyNum} : Type := mk {
  id : Z;
  title : string;
  description : option string;
  category : option string;
  servings : option Z;
  prep_time : option Z;
  cook_time : option Z;
  instructions : option string;
  calories : option Z;
  protein : option float;
  carbs : option float;
  fat : option float;
  created_at : Z;
  updated_at : Z
}.

(** [Recipe.total_time] *)
Definition total_time {N : PyNum} (self : t) : Z :=
  let prep := match prep_time self with
              | Some p => if p =? 0 then 0 else p | None => 0 end in
  let cook := match cook_time self with
              | Some c => if c =? 0 then 0 else c | None => 0 end in
  prep + cook.
End Recipe.

Definition CATEGORIES : list string :=
  ["Breakfast"; "Lunch"; "Dinner"; "Dessert"; "Snack"; "Drink"; "Side"].

Definition UNITS : list string :=
  [""; "cup"; "tbsp"; "tsp"; "oz"; "lb"; "g"; "kg"; "ml"; "L"; "piece";
   "slice"; "clove"; "can"; "bunch"].

(** ** The store

    Two tables, rows in insertion order.  [Recipe.ingredients] is the
    relationship of models.py line 30: the rows of the ingredient table
    whose [recipe_id] is the recipe's id, with
    [cascade='all, delete-orphan']. *)

Record DB {N : PyNum} : Type := mkDB {
  recipes : list Recipe.t;
  ingredients : list Ingredient.t
}.

Section Store.
Context {N : PyNum}.

Definition empty_db : DB := {| recipes := []; ingredients := [] |}.

(** [Recipe.query.get(id)] *)
Definition query_get (d : DB) (id : Z) : option Recipe.t :=
  find (fun r => Recipe.id r =? id) (recipes d).

(** [Recipe.query.get_or_404(id)] *)
Definition get_or_404 (d : DB) (id : Z) : result Recipe.t :=
  match query_get d id with
  | Some r => ret r
  | None => raise NotFound
  end.

(** [recipe.ingredients] *)
Definition ingredients_of (d : DB) (id : Z) : list Ingredient.t :=
  filter (fun i => Ingredient.recipe_id i =? id) (ingredients d).

(** The integer primary key of a new row: one more than the largest
    key of the table. *)
Definition next_id (ids : list Z) : Z := 1 + fold_right Z.max 0 ids.

(** An ingredient as the handlers build it before it has a row:
    [Ingredient(name=..., amount=..., unit=...)]. *)
Definition new_ingredient : Type := (string * option float * string)%type.

Definition row_name (x : new_ingredient) : string := fst (fst x).

Fixpoint new_rows (rid next : Z) (l : list new_ingredient)
  : list Ingredient.t :=
  match l with
  | [] => []
  | (n, a, u) :: l' =>
      {| Ingredient.id := next; Ingredient.recipe_id := rid;
         Ingredient.name := n; Ingredient.amount := a;
         Ingredient.unit := Some u |} :: new_rows rid (next + 1) l'
  end.

(** [db.session.add(recipe); db.session.commit()] for a new recipe that
    carries the ingredients appended to it. *)
Definition session_add (r : Recipe.t) (ings : list new_ingredient)
    (d : DB) : DB :=
  {| recipes := recipes d ++ [r];
     ingredients :=
       ingredients d
       ++ new_rows (Recipe.id r)
            (next_id (map Ingredient.id (ingredients d))) ings |}.

(** [db.session.commit()] after the recipe's columns were assigned and
    its ingredient collection cleared and refilled: the row is updated
    in place, the former ingredients are orphans and are deleted, the
    new ones are inserted. *)
Definition session_update (r : Recipe.t) (ings : list new_ingredient)
    (d : DB) : DB :=
  {| recipes :=
       map (fun r0 => if Recipe.id r0 =? Recipe.id r then r else r0)
         (recipes d);
     ingredients :=
       filter (fun i => negb (Ingredient.recipe_id i =? Recipe.id r))
         (ingredients d)
       ++ new_rows (Recipe.id r)
            (next_id (map Ingredient.id (ingredients d))) ings |}.

(** [db.session.delete(recipe); db.session.commit()]: the cascade
    deletes the recipe's ingredients with it. *)
Definition session_delete (r : Recipe.t) (d : DB) : DB :=
  {| recipes :=
       filter (fun r0 => negb (Recipe.id r0 =? Recipe.id r)) (recipes d);
     ingredients :=
       filter (fun i => negb (Ingredient.recipe_id i =? Recipe.id r))
         (ingredients d) |}.
End Store.

(** ** The request *)

Inductive http_method : Type := GET | POST.

(** [request.args] and [request.form] are multi-dicts: the submitted
    (field, value) pairs in order. *)
Definition multidict : Type := list (string * string).

Record request : Type := mkRequest {
  method : http_method;
  args : multidict;
  form : multidict
}.

Module MultiDict.
(** [md.get(k)]: the first value of field [k] *)
Definition get (k : string) (md : multidict) : option string :=
  Py.get String.eqb k md.

(** [md.get(k, default)] *)
Definition get_default (k : string) (default : string) (md : multidict)
  : string :=
  match get k md with Some v => v | None => default end.

(** [md[k]] *)
Definition getitem (k : string) (md : multidict) : result string :=
  match get k md with Some v => ret v | None => raise BadRequestKeyError end.

(** [md.getlist(k)] *)
Definition getlist (k : string) (md : multidict) : list string :=
  map snd (filter (fun kv => String.eqb (fst kv) k) md).
End MultiDict.

(** ** The queries of [index]

    The store is an SQL database (SQLite unless configured otherwise);
    [Sql] gives the meaning of the operators the query of [index] is
    built from. *)

Module Sql.

(** SQL [lower()]: the letters A-Z only. *)
Definition lower_char (c : ascii) : ascii :=
  let n := Py.code c in
  if ((65 <=? n) && (n <=? 90))%N then ascii_of_N (n + 32) else c.

Fixpoint lower (s : string) : string :=
  match s with
  | EmptyString => EmptyString
  | String c s' => String (lower_char c) (lower s')
  end.

Definition percent : ascii := "%"%char.
Definition underscore : ascii := "_"%char.

(** [s LIKE p]: in the pattern, [%] stands for any run of characters
    and [_] for any one character; there is no escape character. *)
Fixpoint like (p s : string) {struct p} : bool :=
  match p with
  | EmptyString => match s with EmptyString => true | _ => false end
  | String c p' =>
      if Ascii.eqb c percent then
        (fix star (s : string) : bool :=
           like p' s
           || match s with
              | EmptyString => false
              | String _ s' => star s'
              end) s
      else
        match s with
        | EmptyString => false
        | String d s' =>
            (Ascii.eqb c underscore || Ascii.eqb c d) && like p' s'
        end
  end.

(** [col.ilike(p)]: [lower(col) LIKE lower(p)]; NULL when [col] is. *)
Definition ilike (col : option string) (p : string) : option bool :=
  match col with
  | Some s => Some (like (lower p) (lower s))
  | None => None
  end.

(** Three-valued [OR] *)
Definition or3 (a b : option bool) : option bool :=
  match a, b with
  | Some true, _ | _, Some true => Some true
  | Some false, Some false => Some false
  | _, _ => None
  end.

(** [col == v]; NULL when [col] is. *)
Definition eq3 (col : option string) (v : string) : option bool :=
  match col with
  | Some s => Some (String.eqb s v)
  | None => None
  end.

(** A [WHERE] clause keeps the rows on which the condition is true. *)
Definition holds (c : option bool) : bool :=
  match c with Some true => true | _ => false end.

End Sql.

(** ** app.py *)

(** One entry of [ingredient_totals]:
    [{'name', 'amount', 'unit', 'recipes'}]. *)
Module Item.
Record t {N : PyNum} : Type := mk {
  name : string;
  amount : float;
  unit : string;
  recipes : list string
}.
End Item.

Inductive response {N : PyNum} : Type :=
| RenderEdit (recipe : option Recipe.t)   (* render_template('edit.html') *)
| RedirectView (id : Z)                   (* redirect to view_recipe *)
| RedirectIndex.                          (* redirect to index *)

Section App.
Context {N : PyNum}.

(** *** index *)

(** [Recipe.query.outerjoin(Ingredient)] *)
Definition outerjoin (d : DB) : list (Recipe.t * option Ingredient.t) :=
  flat_map
    (fun r =>
       match ingredients_of d (Recipe.id r) with
       | [] => [(r, None)]
       | l => map (fun i => (r, Some i)) l
       end) (recipes d).

(** The [db.or_(...)] of lines 30-34 on a joined row *)
Definition search_condition (search : string)
    (row : Recipe.t * option Ingredient.t) : option bool :=
  let pattern := "%" ++ search ++ "%" in
  Sql.or3
    (Sql.or3 (Sql.ilike (Some (Recipe.title (fst row))) pattern)
             (Sql.ilike (Recipe.description (fst row)) pattern))
    (Sql.ilike (option_map Ingredient.name (snd row)) pattern).

(** [.distinct()] on rows of recipe columns: one row per primary key,
    the first kept.  (The database applies it after the whole [WHERE]
    clause; the category test reads recipe columns only, so it may as
    well come after, in the order the query is built.) *)
Fixpoint distinct_from (seen : list Z) (l : list Recipe.t)
  : list Recipe.t :=
  match l with
  | [] => []
  | r :: l' =>
      if existsb (Z.eqb (Recipe.id r)) seen then distinct_from seen l'
      else r :: distinct_from (Recipe.id r :: seen) l'
  end.

Definition distinct (l : list Recipe.t) : list Recipe.t :=
  distinct_from [] l.

(** [.order_by(Recipe.updated_at.desc())] *)
Definition updated_desc (a b : Recipe.t) : bool :=
  Recipe.updated_at b <=? Recipe.updated_at a.

(** Returns [(recipes, search, selected_category)]. *)
Definition index (req : request) (d : DB)
  : list Recipe.t * string * string :=
  let search := Py.strip (MultiDict.get_default "search" "" (args req)) in
  let category := MultiDict.get_default "category" "" (args req) in
  let query :=
    if Py.truthy search
    then distinct
           (map fst
              (filter (fun row => Sql.holds (search_condition search row))
                 (outerjoin d)))
    else recipes d in
  let query :=
    if Py.truthy category
    then filter
           (fun r => Sql.holds (Sql.eq3 (Recipe.category r) category))
           query
    else query in
  (Py.sorted updated_desc query, search, category).

(** *** view_recipe *)

(** [num / stored if stored else 1]; [num] is evaluated only in the
    first branch. *)
Definition multiplier (num : result (option Z)) (stored : option Z)
  : result float :=
  if Py.truthy_int stored then
    n <- num ;;
    match n, stored with
    | Some a, Some b => ret (truediv a b)
    | _, _ => raise TypeError
    end
  else ret fone.



(** *** new_recipe and edit_recipe *)

(** [int(s)] *)
Definition int (s : string) : result Z :=
  match int_of_str s with Some v => ret v | None => raise ValueError end.

(** [int(request.form.get(k, default))] with an [int] default *)
Definition int_field (k : string) (default : Z) (md : multidict)
  : result Z :=
  match MultiDict.get k md with
  | Some s => int s
  | None => ret default
  end.

(** [int(request.form[k]) if request.form.get(k) else None] *)
Definition opt_int_field (k : string) (md : multidict)
  : result (option Z) :=
  match MultiDict.get k md with
  | Some s => if Py.truthy s then v <- int s ;; ret (Some v) else ret None
  | None => ret None
  end.

(** The loop of lines 83-90 and 124-131 over
    [zip(names, amounts, units)]. *)
Fixpoint ingredient_loop (rows : list (string * (string * string)))
  : result (list new_ingredient) :=
  match rows with
  | [] => ret []
  | (name, (amount, unit)) :: rows' =>
      if Py.truthy (Py.strip name) then
        a <- (if Py.truthy amount
              then match float_of_str amount with
                   | Some x => ret (Some x)
                   | None => raise ValueError
                   end
              else ret None) ;;
        rest <- ingredient_loop rows' ;;
        ret ((Py.strip name, a, unit) :: rest)
      else ingredient_loop rows'
  end.

Definition form_ingredients (md : multidict) : result (list new_ingredient) :=
  let names := MultiDict.getlist "ingredient_name[]" md in
  let amounts := MultiDict.getlist "ingredient_amount[]" md in
  let units := MultiDict.getlist "ingredient_unit[]" md in
  ingredient_loop (combine names (combine amounts units)).

(** [now] is the clock reading ([datetime.utcnow]) of the commit. *)
Definition new_recipe (now : Z) (req : request) (d : DB)
  : result (response * DB) :=
  match method req with
  | POST =>
      title <- MultiDict.getitem "title" (form req) ;;
      let description := MultiDict.get_default "description" "" (form req) in
      let category := MultiDict.get_default "category" "Dinner" (form req) in
      servings <- int_field "servings" 4 (form req) ;;
      prep_time <- opt_int_field "prep_time" (form req) ;;
      cook_time <- opt_int_field "cook_time" (form req) ;;
      let instructions :=
        MultiDict.get_default "instructions" "" (form req) in
      ings <- form_ingredients (form req) ;;
      let recipe :=
        {| Recipe.id := next_id (map Recipe.id (recipes d));
           Recipe.title := title;
           Recipe.description := Some description;
           Recipe.category := Some category;
           Recipe.servings := Some servings;
           Recipe.prep_time := prep_time;
           Recipe.cook_time := cook_time;
           Recipe.instructions := Some instructions;
           Recipe.calories := None;
           Recipe.protein := None;
           Recipe.carbs := None;
           Recipe.fat := None;
           Recipe.created_at := now;
           Recipe.updated_at := now |} in
      ret (RedirectView (Recipe.id recipe), session_add recipe ings d)
  | GET => ret (RenderEdit None, d)
  end.

Definition opt_eqb {A} (eqb : A -> A -> bool) (a b : option A) : bool :=
  match a, b with
  | Some x, Some y => eqb x y
  | None, None => true
  | _, _ => false
  end.

(** [updated_at] has [onupdate=datetime.utcnow]: it is refreshed when
    the commit updates a column of the row. *)
Definition columns_changed (old new : Recipe.t) : bool :=
  negb (String.eqb (Recipe.title old) (Recipe.title new)
        && opt_eqb String.eqb (Recipe.description old)
             (Recipe.description new)
        && opt_eqb String.eqb (Recipe.category old) (Recipe.category new)
        && opt_eqb Z.eqb (Recipe.servings old) (Recipe.servings new)
        && opt_eqb Z.eqb (Recipe.prep_time old) (Recipe.prep_time new)
        && opt_eqb Z.eqb (Recipe.cook_time old) (Recipe.cook_time new)
        && opt_eqb String.eqb (Recipe.instructions old)
             (Recipe.instructions new)).

Definition edit_recipe (id : Z) (now : Z) (req : request) (d : DB)
  : result (response * DB) :=
  recipe <- get_or_404 d id ;;
  match method req with
  | POST =>
      title <- MultiDict.getitem "title" (form req) ;;
      let description := MultiDict.get_default "description" "" (form req) in
      let category := MultiDict.get_default "category" "Dinner" (form req) in
      servings <- int_field "servings" 4 (form req) ;;
      prep_time <- opt_int_field "prep_time" (form req) ;;
      cook_time <- opt_int_field "cook_time" (form req) ;;
      let instructions :=
        MultiDict.get_default "instructions" "" (form req) in
      ings <- form_ingredients (form req) ;;
      let assigned :=
        {| Recipe.id := Recipe.id recipe;
           Recipe.title := title;
           Recipe.description := Some description;
           Recipe.category := Some category;
           Recipe.servings := Some servings;
           Recipe.prep_time := prep_time;
           Recipe.cook_time := cook_time;
           Recipe.instructions := Some instructions;
           Recipe.calories := Recipe.calories recipe;
           Recipe.protein := Recipe.protein recipe;
           Recipe.carbs := Recipe.carbs recipe;
           Recipe.fat := Recipe.fat recipe;
           Recipe.created_at := Recipe.created_at recipe;
           Recipe.updated_at :=
             Recipe.updated_at recipe |} in
      let recipe' :=
        if columns_changed recipe assigned
        then {| Recipe.id := Recipe.id assigned;
                Recipe.title := Recipe.title assigned;
                Recipe.description := Recipe.description assigned;
                Recipe.category := Recipe.category assigned;
                Recipe.servings := Recipe.servings assigned;
                Recipe.prep_time := Recipe.prep_time assigned;
                Recipe.cook_time := Recipe.cook_time assigned;
                Recipe.instructions := Recipe.instructions assigned;
                Recipe.calories := Recipe.calories assigned;
                Recipe.protein := Recipe.protein assigned;
                Recipe.carbs := Recipe.carbs assigned;
                Recipe.fat := Recipe.fat assigned;
                Recipe.created_at := Recipe.created_at assigned;
                Recipe.updated_at := now |}
        else assigned in
      ret (RedirectView (Recipe.id recipe), session_update recipe' ings d)
  | GET => ret (RenderEdit (Some recipe), d)
  end.

(** *** delete_recipe (the route accepts POST only) *)
Definition delete_recipe (id : Z) (d : DB) : result (response * DB) :=
  recipe <- get_or_404 d id ;;
  ret (RedirectIndex, session_delete recipe d).

(** The stored state after a handler ran: its commit, or the state it
    started from when it raised. *)
Definition after {A} (d : DB) (r : result (A * DB)) : DB :=
  match r with
  | inr (_, d') => d'
  | inl _ => d
  end.
End App.

(** *** shopping_list *)

(** A key of [ingredient_totals]: [(ing.name.lower(), ing.unit or '')]. *)
Definition key : Type := (string * string)%type.

Definition key_eqb (a b : key) : bool :=
  String.eqb (fst a) (fst b) && String.eqb (snd a) (snd b).


Section ShoppingList.
Context {N : PyNum}.

Definition totals : Type := list (key * Item.t).

(** [ing.unit or ''] *)
Definition unit_or_empty (u : option string) : string :=
  match u with
  | Some s => if Py.truthy s then s else ""
  | None => ""
  end.

(** [ing.amount or 0] *)
Definition amount_or_0 (a : option float) : float :=
  match a with
  | Some x => if ftruthy x then x else fzero
  | None => fzero
  end.

Definition key_of (ing : Ingredient.t) : key :=
  (Py.lower (Ingredient.name ing), unit_or_empty (Ingredient.unit ing)).

(** The body of the inner loop, lines 177-189. *)
Definition add_ingredient (title : string) (m : float)
    (ingredient_totals : totals) (ing : Ingredient.t) : totals :=
  let key := key_of ing in
  let scaled_amount := fmul (amount_or_0 (Ingredient.amount ing)) m in
  match Py.get key_eqb key ingredient_totals with
  | Some entry =>
      Py.set key_eqb key
        {| Item.name := Item.name entry;
           Item.amount := fadd (Item.amount entry) scaled_amount;
           Item.unit := Item.unit entry;
           Item.recipes := Item.recipes entry ++ [title] |}
        ingredient_totals
  | None =>
      Py.set key_eqb key
        {| Item.name := Ingredient.name ing;
           Item.amount := scaled_amount;
           Item.unit := unit_or_empty (Ingredient.unit ing);
           Item.recipes := [title] |}
        ingredient_totals
  end.

(** [servings_map[recipe_id]] *)
Definition servings_getitem (servings_map : list (Z * Z)) (recipe_id : Z)
  : result (option Z) :=
  match Py.get Z.eqb recipe_id servings_map with
  | Some v => ret (Some v)
  | None => raise KeyError
  end.

(** The body of the outer loop, lines 172-189. *)
Definition add_recipe (d : DB) (servings_map : list (Z * Z))
    (ingredient_totals : totals) (recipe_id : Z) : result totals :=
  match query_get d recipe_id with
  | Some recipe =>
      m <- multiplier (servings_getitem servings_map recipe_id)
             (Recipe.servings recipe) ;;
      ret (fold_left (add_ingredient (Recipe.title recipe) m)
             (ingredients_of d (Recipe.id recipe)) ingredient_totals)
  | None => ret ingredient_totals
  end.

(** [int(request.form.get(f'servings_{recipe_id}', 4))] *)
Definition desired_servings (req : request) (recipe_id : Z) : result Z :=
  int_field ("servings_" ++ Py.str recipe_id) 4 (form req).

(** The body of the loop of lines 165-166. *)
Definition set_servings (req : request) (servings_map : list (Z * Z))
    (recipe_id : Z) : result (list (Z * Z)) :=
  v <- desired_servings req recipe_id ;;
  ret (Py.set Z.eqb recipe_id v servings_map).

(** Every entry of the map is the form's value for its id. *)
Definition consistent (req : request) (sm : list (Z * Z)) : Prop :=
  forall id v, Py.get Z.eqb id sm = Some v ->
               desired_servings req id = inr v.

(** [Recipe.query.order_by(Recipe.title)] *)
Definition title_le (a b : Recipe.t) : bool :=
  String.leb (Recipe.title a) (Recipe.title b).

(** [key=lambda x: x['name'].lower()] *)
Definition name_le (a b : Item.t) : bool :=
  String.leb (Py.lower (Item.name a)) (Py.lower (Item.name b)).

(** Returns [(recipes, shopping_items, selected_ids)]. *)
Definition shopping_list (req : request) (d : DB)
  : result (list Recipe.t * list Item.t * list Z) :=
  let recipes := Py.sorted title_le (recipes d) in
  match method req with
  | POST =>
      selected_ids <- mapM int (MultiDict.getlist "recipes" (form req)) ;;
      servings_map <- foldM (set_servings req) selected_ids [] ;;
      ingredient_totals <- foldM (add_recipe d servings_map) selected_ids [] ;;
      ret (recipes, Py.sorted name_le (Py.values ingredient_totals),
           selected_ids)
  | GET => ret (recipes, [], [])
  end.

(** *** The vocabulary of the aggregation properties *)

(** The selections of a request: the [(recipe_id, desired_servings)]
    pairs that lines 162-166 read from the form. *)
Definition selections (req : request) : result (list (Z * Z)) :=
  selected_ids <- mapM int (MultiDict.getlist "recipes" (form req)) ;;
  mapM (fun recipe_id =>
          v <- desired_servings req recipe_id ;; ret (recipe_id, v))
    selected_ids.

(** The multiplier of a recipe for a desired number of servings. *)
Definition scaling (desired : Z) (stored : option Z) : float :=
  match stored with
  | Some s => if s =? 0 then fone else truediv desired s
  | None => fone
  end.

(** An ingredient occurrence: the title of its recipe, the recipe's
    multiplier and the ingredient. *)
Definition occurrence : Type := (string * float * Ingredient.t)%type.

Definition occ_title (o : occurrence) : string := fst (fst o).
Definition occ_multiplier (o : occurrence) : float := snd (fst o).
Definition occ_ingredient (o : occurrence) : Ingredient.t := snd o.
Definition occ_key (o : occurrence) : key := key_of (occ_ingredient o).

(** [(amount or 0) * multiplier] of an occurrence *)
Definition occ_amount (o : occurrence) : float :=
  fmul (amount_or_0 (Ingredient.amount (occ_ingredient o)))
    (occ_multiplier o).

(** The occurrences of one selection: none when the id does not
    resolve, else the recipe's ingredients in their order. *)
Definition occurrences_of (d : DB) (sel : Z * Z) : list occurrence :=
  match query_get d (fst sel) with
  | Some recipe =>
      map (fun ing =>
             (Recipe.title recipe,
              scaling (snd sel) (Recipe.servings recipe), ing))
        (ingredients_of d (Recipe.id recipe))
  | None => []
  end.

(** All occurrences, in the order the two loops visit them. *)
Definition occurrences (d : DB) (sels : list (Z * Z)) : list occurrence :=
  flat_map (occurrences_of d) sels.

(** The occurrences that carry key [k], in order. *)
Definition group (k : key) (occs : list occurrence) : list occurrence :=
  filter (fun o => key_eqb (occ_key o) k) occs.

(** The keys of a sequence, each once, in order of first appearance. *)
Fixpoint dedup (ks : list key) : list key :=
  match ks with
  | [] => []
  | k :: ks' => k :: filter (fun k' => negb (key_eqb k' k)) (dedup ks')
  end.

(** Summation from the left, as [+=] performs it. *)
Definition sum_from (first : float) (rest : list float) : float :=
  fold_left fadd rest first.

(** The shopping item a group of occurrences merges into. *)
Definition merge_group (g : list occurrence) : Item.t :=
  {| Item.name :=
       match g with
       | o :: _ => Ingredient.name (occ_ingredient o)
       | [] => ""
       end;
     Item.amount :=
       match g with
       | o :: rest => sum_from (occ_amount o) (map occ_amount rest)
       | [] => fzero
       end;
     Item.unit :=
       match g with
       | o :: _ => unit_or_empty (Ingredient.unit (occ_ingredient o))
       | [] => ""
       end;
     Item.recipes := map occ_title g |}.

(** The key an item was filed under, read back from the item. *)
Definition item_key (it : Item.t) : key :=
  (Py.lower (Item.name it), Item.unit it).

(** The two loops of lines 171-189 as one pass over the occurrences. *)
Definition add_occurrence (t : totals) (o : occurrence) : totals :=
  add_ingredient (occ_title o) (occ_multiplier o) t (occ_ingredient o).

Definition aggregate (occs : list occurrence) : totals :=
  fold_left add_occurrence occs [].

(** The items of a shopping list, as the aggregation describes them:
    one merged item per key, keys in order of first appearance, then
    sorted by lowercased name. *)
Definition merged_items (occs : list occurrence) : list Item.t :=
  map (fun k => merge_group (group k occs)) (dedup (map occ_key occs)).

Definition shopping_items (d : DB) (sels : list (Z * Z)) : list Item.t :=
  Py.sorted name_le (merged_items (occurrences d sels)).

(** The items a handler result carries (none when it raised). *)
Definition items_of (r : result (list Recipe.t * list Item.t * list Z))
  : list Item.t :=
  match r with
  | inr (_, items, _) => items
  | inl _ => []
  end.

(** *** The transitions of the store *)

Inductive step : DB -> DB -> Prop :=
| step_new (now : Z) (req : request) (d : DB) :
    step d (after d (new_recipe now req d))
| step_edit (id now : Z) (req : request) (d : DB) :
    step d (after d (edit_recipe id now req d))
| step_delete (id : Z) (d : DB) :
    step d (after d (delete_recipe id d)).

Inductive reachable : DB -> Prop :=
| reach_empty : reachable empty_db
| reach_step (d d' : DB) : reachable d -> step d d' -> reachable d'.

End ShoppingList.

(** ** Exact rationals as an implementation of [PyNum]

    Used to run the handlers on concrete requests.  The two parsers read
    plain decimal literals ([-12], [2.5]). *)

Module QNum.

Fixpoint digits (s : string) (acc : Z) : option Z :=
  match s with
  | EmptyString => Some acc
  | String c s' =>
      let n := Z.of_N (Py.code c) in
      if (48 <=? n) && (n <=? 57) then digits s' (10 * acc + (n - 48))
      else None
  end.

Definition number (s : string) : option Z :=
  match s with
  | EmptyString => None
  | _ => digits s 0
  end.

Definition parse_int (s : string) : option Z :=
  match s with
  | String "-" s' => option_map Z.opp (number s')
  | _ => number s
  end.

Fixpoint split_dot (s : string) : string * option string :=
  match s with
  | EmptyString => (EmptyString, None)
  | String "." s' => (EmptyString, Some s')
  | String c s' =>
      let (a, b) := split_dot s' in (String c a, b)
  end.

Definition parse_float (s : string) : option Q :=
  match split_dot s with
  | (a, None) => option_map inject_Z (parse_int a)
  | (a, Some b) =>
      match parse_int a, number b with
      | Some x, Some y =>
          let scale := 10 ^ Z.of_nat (String.length b) in
          Some (Qred (Qmake (x * scale + (if x <? 0 then - y else y))
                        (Z.to_pos scale)))
      | _, _ => None
      end
  end.

(** Round to two decimals, ties to even. *)
Definition round_half_even (x : Q) : Q :=
  let y := Qmult x (inject_Z 100) in
  let n := Qfloor y in
  let r := Qminus y (inject_Z n) in
  let n' :=
    match Qcompare r (1 # 2) with
    | Lt => n
    | Gt => n + 1
    | Eq => if Z.even n then n else n + 1
    end in
  Qred (Qmake n' 100).

#[export] Instance num : PyNum := {|
  float := Q;
  fzero := 0%Q;
  fone := 1%Q;
  fadd := fun x y => Qred (Qplus x y);
  fmul := fun x y => Qred (Qmult x y);
  truediv := fun a b => Qred (Qdiv (inject_Z a) (inject_Z b));
  round2 := round_half_even;
  ftruthy := fun x => negb (Qeq_bool x 0);
  float_of_str := parse_float;
  int_of_str := parse_int;
  ftruthy_zero := eq_refl
|}.

End QNum.

(** ** Invariants of the store *)

Section Invariants.
Context {N : PyNum}.

(** Every ingredient row belongs to a recipe row. *)
Definition no_orphans (d : DB) : Prop :=
  forall i, In i (ingredients d) ->
            exists r, In r (recipes d)
                      /\ Recipe.id r = Ingredient.recipe_id i.

(** Every ingredient name is non-empty and is its own trimmed form. *)
Definition names_trimmed (d : DB) : Prop :=
  forall i, In i (ingredients d) ->
            Ingredient.name i <> ""
            /\ Py.strip (Ingredient.name i) = Ingredient.name i.

(** The names a form's ingredient rows are stored under: the trimmed
    names of the rows whose trimmed name is not empty. *)
Definition kept_names (md : multidict) : list string :=
  map Py.strip
    (filter (fun n => Py.truthy (Py.strip n))
       (map fst
          (combine (MultiDict.getlist "ingredient_name[]" md)
             (combine (MultiDict.getlist "ingredient_amount[]" md)
                (MultiDict.getlist "ingredient_unit[]" md))))).
End Invariants.

(** ** Substring search, as the search box is meant to work *)

Module Search.
(** [w in s] *)
Fixpoint is_substring (w s : string) : bool :=
  String.prefix w s
  || match s with
     | EmptyString => false
     | String _ s' => is_substring w s'
     end.

(** [w] occurs in [s], letter case apart. *)
Definition ci_substring (w s : string) : bool :=
  is_substring (Sql.lower w) (Sql.lower s).

Fixpoint wildcard_free (w : string) : bool :=
  match w with
  | EmptyString => true
  | String c w' =>
      negb (Ascii.eqb c Sql.percent) && negb (Ascii.eqb c Sql.underscore)
      && wildcard_free w'
  end.

(** [w] occurs in the title, the description or an ingredient name. *)
Definition found {N : PyNum} (w : string) (d : DB) (r : Recipe.t) : bool :=
  ci_substring w (Recipe.title r)
  || match Recipe.description r with
     | Some s => ci_substring w s
     | None => false
     end
  || existsb (fun i => ci_substring w (Ingredient.name i))
       (ingredients_of d (Recipe.id r)).
End Search.

(** ** Sample requests and stores *)

Module Sample.
Import QNum.

Definition post (f : multidict) : request :=
  {| method := POST; args := []; form := f |}.

Definition get (a : multidict) : request :=
  {| method := GET; args := a; form := [] |}.

Definition row (name amount unit : string) : multidict :=
  [("ingredient_name[]", name); ("ingredient_amount[]", amount);
   ("ingredient_unit[]", unit)].

(** Recipe A (2 servings): Sugar 1.0 cup, a blank row, Salt 0 tsp. *)
Definition form_a : multidict :=
  ([("title", "A"); ("servings", "2")]
   ++ row "Sugar" "1.0" "cup" ++ row "  " "3" "g" ++ row "Salt " "0" "tsp")%list.

(** Recipe B (4 servings): sugar 2.0 cup, Flour 1.5. *)
Definition form_b : multidict :=
  ([("title", "B"); ("servings", "4")]
   ++ row "sugar" "2.0" "cup" ++ row "Flour" "1.5" "")%list.

Definition db_a : DB := after empty_db (new_recipe 10 (post form_a) empty_db).
Definition db_ab : DB := after db_a (new_recipe 20 (post form_b) db_a).

(** A at 4 servings, B at the default, in the two orders. *)
Definition select_a_b : request :=
  post [("recipes", "1"); ("recipes", "2"); ("servings_1", "4")].
Definition select_b_a : request :=
  post [("recipes", "2"); ("recipes", "1"); ("servings_1", "4")].

Definition salt : Ingredient.t :=
  {| Ingredient.id := 2; Ingredient.recipe_id := 1;
     Ingredient.name := "Salt"; Ingredient.amount := Some 0%Q;
     Ingredient.unit := Some "tsp" |}.

Definition form_untitled : multidict := [("title", "")].
Definition form_no_title : multidict := [("servings", "2")].

Definition search_underscore : request := get [("search", "_")].
End Sample.

(** ** The JSON listing

    [to_dict] returns a dict with fixed keys, modelled as a record;
    [api_recipes] hands the list of them to [jsonify]. *)

Module IngredientDict.
Record t {N : PyNum} : Type := mk {
  id : Z;
  name : string;
  amount : option float;
  unit : option string
}.

(** [Ingredient.to_dict] *)
Definition to_dict {N : PyNum} (self : Ingredient.t) : t :=
  {| id := Ingredient.id self;
     name := Ingredient.name self;
     amount := Ingredient.amount self;
     unit := Ingredient.unit self |}.
End IngredientDict.

Module RecipeDict.
Record t {N : PyNum} : Type := mk {
  id : Z;
  title : string;
  description : option string;
  category : option string;
  servings : option Z;
  prep_time : option Z;
  cook_time : option Z;
  instructions : option string;
  calories : option Z;
  protein : option float;
  carbs : option float;
  fat : option float;
  ingredients : list IngredientDict.t
}.

(** [Recipe.to_dict]; [self.ingredients] is read from the store. *)
Definition to_dict {N : PyNum} (d : DB) (self : Recipe.t) : t :=
  {| id := Recipe.id self;
     title := Recipe.title self;
     description := Recipe.description self;
     category := Recipe.category self;
     servings := Recipe.servings self;
     prep_time := Recipe.prep_time self;
     cook_time := Recipe.cook_time self;
     instructions := Recipe.instructions self;
     calories := Recipe.calories self;
     protein := Recipe.protein self;
     carbs := Recipe.carbs self;
     fat := Recipe.fat self;
     ingredients :=
       map IngredientDict.to_dict (ingredients_of d (Recipe.id self)) |}.
End RecipeDict.

Section Api.
Context {N : PyNum}.

(** [api_recipes]: the list passed to [jsonify]. *)
Definition api_recipes (d : DB) : list RecipeDict.t :=
  map (RecipeDict.to_dict d) (recipes d).

(** *** Vocabulary for the form handlers *)

(** The rows [zip(names, amounts, units)] of a form. *)
Definition form_rows (md : multidict) : list (string * (string * string)) :=
  combine (MultiDict.getlist "ingredient_name[]" md)
    (combine (MultiDict.getlist "ingredient_amount[]" md)
       (MultiDict.getlist "ingredient_unit[]" md)).

(** The row is kept: its name is not blank. *)
Definition row_kept (row : string * (string * string)) : bool :=
  Py.truthy (Py.strip (fst row)).

(** The amount of the row is empty or converts to a float. *)
Definition amount_converts (row : string * (string * string)) : bool :=
  negb (Py.truthy (fst (snd row)))
  || match float_of_str (fst (snd row)) with
     | Some _ => true
     | None => false
     end.

(** What a kept row is stored as. *)
Definition row_stored (row : string * (string * string)) : new_ingredient :=
  (Py.strip (fst row),
   (if Py.truthy (fst (snd row)) then float_of_str (fst (snd row)) else None),
   snd (snd row)).



(** The columns the handlers always fill are filled, the nutrition
    columns they never touch are empty, and every unit is a string. *)
Definition filled_recipe (r : Recipe.t) : Prop :=
  Recipe.description r <> None /\ Recipe.category r <> None
  /\ Recipe.servings r <> None /\ Recipe.instructions r <> None
  /\ Recipe.calories r = None /\ Recipe.protein r = None
  /\ Recipe.carbs r = None /\ Recipe.fat r = None.

Definition filled (d : DB) : Prop :=
  (forall r, In r (recipes d) -> filled_recipe r)
  /\ (forall i, In i (ingredients d) -> Ingredient.unit i <> None).

(** The minutes a time field of a form stands for: none when the field
    is missing or empty. *)
Definition minutes (k : string) (md : multidict) : Z :=
  match MultiDict.get k md with
  | Some s =>
      if Py.truthy s
      then match int_of_str s with Some v => v | None => 0 end
      else 0
  | None => 0
  end.

End Api.

(** ** More sample requests *)

Module Cases.
Import QNum.

Definition blank_search : request :=
  Sample.get [("search", "   "); ("category", "Dinner")].
Definition search_flour : request := Sample.get [("search", " FLOUR ")].
Definition search_sugar_percent : request := Sample.get [("search", "u%")].
Definition view_bad_servings : request := Sample.get [("servings", "many")].
Definition view_plain : request := Sample.get [].

(** Recipe C: no servings, category or times given; one row lacks its
    unit field. *)
Definition form_c : multidict :=
  [("title", "C"); ("ingredient_name[]", " Egg "); ("ingredient_amount[]", "");
   ("ingredient_unit[]", "piece"); ("ingredient_name[]", "Milk");
   ("ingredient_amount[]", "0.5")].





Definition form_timed : multidict :=
  [("title", "F"); ("prep_time", "15"); ("cook_time", "")].

(** Recipe B as [Sample.db_ab] holds it. *)
Definition recipe_b : Recipe.t :=
  {| Recipe.id := 2; Recipe.title := "B"; Recipe.description := Some "";
     Recipe.category := Some "Dinner"; Recipe.servings := Some 4;
     Recipe.prep_time := None; Recipe.cook_time := None;
     Recipe.instructions := Some ""; Recipe.calories := None;
     Recipe.protein := None; Recipe.carbs := None; Recipe.fat := None;
     Recipe.created_at := 20; Recipe.updated_at := 20 |}.
End Cases.

(** * Properties *)

(** ** Strings *)

Lemma leb_refl (s : string) : String.leb s s = true.
Proof.
  destruct (String.leb_total s s); assumption.
Qed.

Lemma compare_refl (s : string) : String.compare s s = Eq.
Proof.
  pose proof (String.compare_antisym s s) as H.
  destruct (String.compare s s); simpl in H; congruence.
Qed.

Lemma compare_trans_lt (a b c : string) :
  String.compare a b = Lt -> String.compare b c = Lt ->
  String.compare a c = Lt.
Proof.
  revert b c.
  induction a as [|x a IH]; intros [|y b] [|z c]; simpl;
    try congruence.
  unfold Ascii.compare.
  destruct (N.compare_spec (N_of_ascii x) (N_of_ascii y)) as [Exy|Lxy|Gxy];
    destruct (N.compare_spec (N_of_ascii y) (N_of_ascii z)) as [Eyz|Lyz|Gyz];
    try congruence; intros Hab Hbc.
  - rewrite Exy, Eyz, N.compare_refl. eauto.
  - rewrite Exy. apply N.compare_lt_iff in Lyz. now rewrite Lyz.
  - rewrite <- Eyz. apply N.compare_lt_iff in Lxy. now rewrite Lxy.
  - assert (H : (N_of_ascii x < N_of_ascii z)%N) by lia.
    apply N.compare_lt_iff in H. now rewrite H.
Qed.

Lemma leb_trans (a b c : string) :
  String.leb a b = true -> String.leb b c = true -> String.leb a c = true.
Proof.
  unfold String.leb.
  destruct (String.compare a b) eqn:Hab; try discriminate;
    destruct (String.compare b c) eqn:Hbc; try discriminate; intros _ _.
  - apply String.compare_eq_iff in Hab, Hbc. subst.
    now rewrite compare_refl.
  - apply String.compare_eq_iff in Hab. subst. now rewrite Hbc.
  - apply String.compare_eq_iff in Hbc. subst. now rewrite Hab.
  - now rewrite (compare_trans_lt a b c Hab Hbc).
Qed.

(** ** [sorted] *)

Section SortedFacts.
Context {A : Type} (le : A -> A -> bool).

Lemma insert_perm (x : A) (l : list A) :
  Permutation (Py.insert le x l) (x :: l).
Proof.
  induction l as [|y l IH]; simpl.
  - reflexivity.
  - destruct (le x y).
    + reflexivity.
    + rewrite IH. apply perm_swap.
Qed.

Lemma sorted_perm (l : list A) : Permutation (Py.sorted le l) l.
Proof.
  induction l as [|x l IH]; simpl.
  - constructor.
  - rewrite insert_perm. now constructor.
Qed.


Lemma sorted_In (x : A) (l : list A) : In x (Py.sorted le l) <-> In x l.
Proof.
  split; apply Permutation_in; [|symmetry]; apply sorted_perm.
Qed.

(** Stability: elements that [p] selects and that compare as equal keep
    their order. *)
Lemma insert_filter (p : A -> bool) (x : A) (l : list A) :
  (p x = true -> forall y, p y = true -> le x y = true) ->
  filter p (Py.insert le x l) = filter p (x :: l).
Proof.
  intros Hp.
  induction l as [|y l IH]; simpl.
  - reflexivity.
  - destruct (le x y) eqn:Hxy.
    + reflexivity.
    + simpl in *. rewrite IH.
      destruct (p x) eqn:Hx; [|reflexivity].
      destruct (p y) eqn:Hy; [|reflexivity].
      rewrite (Hp eq_refl y Hy) in Hxy. discriminate.
Qed.

Lemma sorted_filter (p : A -> bool) (l : list A) :
  (forall x y, p x = true -> p y = true -> le x y = true) ->
  filter p (Py.sorted le l) = filter p l.
Proof.
  intros Hp.
  induction l as [|x l IH]; simpl.
  - reflexivity.
  - rewrite insert_filter.
    + simpl. now rewrite IH.
    + intros Hx y Hy. now apply Hp.
Qed.

Hypothesis le_total : forall a b, le a b = true \/ le b a = true.
Hypothesis le_trans :
  forall a b c, le a b = true -> le b c = true -> le a c = true.

Lemma insert_sorted (x : A) (l : list A) :
  StronglySorted (fun a b => le a b = true) l ->
  StronglySorted (fun a b => le a b = true) (Py.insert le x l).
Proof.
  induction 1 as [|y l Hs IH Hall]; simpl.
  - repeat constructor.
  - destruct (le x y) eqn:Hxy.
    + constructor.
      * now constructor.
      * constructor; [exact Hxy|].
        eapply Forall_impl; [|exact Hall].
        intros z Hz. simpl in *. eauto.
    + constructor; [exact IH|].
      assert (Hyx : le y x = true)
        by (destruct (le_total x y); congruence).
      rewrite Forall_forall in *. intros z Hz.
      apply (Permutation_in _ (insert_perm x l)) in Hz.
      destruct Hz as [<-|Hz]; auto.
Qed.

Lemma sorted_sorted (l : list A) :
  StronglySorted (fun a b => le a b = true) (Py.sorted le l).
Proof.
  induction l as [|x l IH]; simpl.
  - constructor.
  - now apply insert_sorted.
Qed.
End SortedFacts.

(** Two sorted sequences of the same keys are the same sequence. *)
Lemma sorted_unique (l1 l2 : list string) :
  StronglySorted (fun a b => String.leb a b = true) l1 ->
  StronglySorted (fun a b => String.leb a b = true) l2 ->
  Permutation l1 l2 -> l1 = l2.
Proof.
  intros H1. revert l2.
  induction H1 as [|x l1 Hs1 IH Hall1]; intros l2 H2 Hp.
  - apply Permutation_nil in Hp. now subst.
  - destruct H2 as [|y l2 Hs2 Hall2].
    + symmetry in Hp. apply Permutation_nil in Hp. discriminate.
    + assert (Hxy : x = y).
      { rewrite Forall_forall in Hall1, Hall2.
        assert (Hx : In x (y :: l2))
          by (eapply Permutation_in; [exact Hp|now left]).
        assert (Hy : In y (x :: l1))
          by (eapply Permutation_in; [symmetry; exact Hp|now left]).
        destruct Hx as [Hx|Hx]; [now subst|].
        destruct Hy as [Hy|Hy]; [now subst|].
        apply String.leb_antisym; auto. }
      subst y. f_equal. apply IH; [assumption|].
      now apply Permutation_cons_inv in Hp.
Qed.

(** ** [dict] *)

Lemma key_eqb_eq (a b : key) : key_eqb a b = true <-> a = b.
Proof.
  destruct a as [a1 a2], b as [b1 b2]. unfold key_eqb. simpl.
  rewrite andb_true_iff, !String.eqb_eq.
  split; [intros [-> ->]; reflexivity | intros [= -> ->]; auto].
Qed.

Lemma key_eqb_refl (a : key) : key_eqb a a = true.
Proof. now apply key_eqb_eq. Qed.

Lemma key_eqb_neq (a b : key) : key_eqb a b = false <-> a <> b.
Proof.
  rewrite <- key_eqb_eq. destruct (key_eqb a b); split; congruence.
Qed.

Lemma key_eqb_sym (a b : key) : key_eqb a b = key_eqb b a.
Proof.
  destruct (key_eqb b a) eqn:H.
  - apply key_eqb_eq in H. subst. apply key_eqb_refl.
  - apply key_eqb_neq. apply key_eqb_neq in H. congruence.
Qed.

Section DictFacts.
Context {K V : Type} (eqb : K -> K -> bool).
Hypothesis eqb_eq : forall a b, eqb a b = true <-> a = b.

Lemma eqb_same (a : K) : eqb a a = true.
Proof. now apply eqb_eq. Qed.

Lemma get_set_same (k : K) (v : V) (d : list (K * V)) :
  Py.get eqb k (Py.set eqb k v d) = Some v.
Proof.
  induction d as [|[k' v'] d IH]; simpl.
  - now rewrite eqb_same.
  - destruct (eqb k k') eqn:E; simpl; rewrite E; auto.
Qed.

Lemma get_set_other (k k' : K) (v : V) (d : list (K * V)) :
  k <> k' -> Py.get eqb k' (Py.set eqb k v d) = Py.get eqb k' d.
Proof.
  intros Hne.
  assert (Hf : eqb k' k = false).
  { destruct (eqb k' k) eqn:E; [|reflexivity].
    apply eqb_eq in E. congruence. }
  induction d as [|[k0 v0] d IH]; simpl.
  - now rewrite Hf.
  - destruct (eqb k k0) eqn:E; simpl.
    + apply eqb_eq in E. subst k0. now rewrite Hf.
    + now rewrite IH.
Qed.

(** A dict given by its keys and a function of the key. *)
Lemma get_tabulate (f : K -> V) (k : K) (ks : list K) :
  Py.get eqb k (map (fun k' => (k', f k')) ks)
  = if existsb (eqb k) ks then Some (f k) else None.
Proof.
  induction ks as [|k0 ks IH]; simpl.
  - reflexivity.
  - destruct (eqb k k0) eqn:E; simpl.
    + apply eqb_eq in E. now subst.
    + exact IH.
Qed.

Lemma existsb_eqb (k : K) (ks : list K) :
  existsb (eqb k) ks = true <-> In k ks.
Proof.
  rewrite existsb_exists. split.
  - intros [x [Hx E]]. apply eqb_eq in E. now subst.
  - intros H. exists k. split; [assumption|apply eqb_same].
Qed.

Lemma set_tabulate_new (f : K -> V) (k : K) (v : V) (ks : list K) :
  ~ In k ks ->
  Py.set eqb k v (map (fun k' => (k', f k')) ks)
  = (map (fun k' => (k', f k')) ks ++ [(k, v)])%list.
Proof.
  induction ks as [|k0 ks IH]; simpl; intros Hn.
  - reflexivity.
  - destruct (eqb k k0) eqn:E.
    + apply eqb_eq in E. subst. tauto.
    + rewrite IH; tauto.
Qed.

Lemma set_tabulate_old (f g : K -> V) (k : K) (v : V) (ks : list K) :
  NoDup ks -> In k ks -> g k = v ->
  (forall k', k' <> k -> In k' ks -> g k' = f k') ->
  Py.set eqb k v (map (fun k' => (k', f k')) ks)
  = map (fun k' => (k', g k')) ks.
Proof.
  induction 1 as [|k0 ks Hnin Hnd IH]; simpl; intros Hin Hv Hg.
  - contradiction.
  - destruct (eqb k k0) eqn:E.
    + apply eqb_eq in E. subst k0. rewrite Hv. f_equal.
      apply map_ext_in. intros k' Hk'.
      rewrite Hg; auto. intros ->. contradiction.
    + assert (Hne : k <> k0).
      { intros ->. rewrite eqb_same in E. discriminate. }
      rewrite Hg by auto. f_equal.
      apply IH; auto. destruct Hin; congruence.
Qed.
End DictFacts.

(** ** The aggregation loops *)

Section AggregateFacts.
Context {N : PyNum}.

Lemma dedup_In (k : key) (ks : list key) : In k (dedup ks) <-> In k ks.
Proof.
  induction ks as [|k0 ks IH]; simpl.
  - tauto.
  - rewrite filter_In, IH, negb_true_iff, key_eqb_neq.
    destruct (key_eqb k k0) eqn:E.
    + apply key_eqb_eq in E. subst. tauto.
    + apply key_eqb_neq in E. split; [tauto|].
      intros [H|H]; [congruence|auto].
Qed.

Lemma dedup_NoDup (ks : list key) : NoDup (dedup ks).
Proof.
  induction ks as [|k0 ks IH]; simpl; constructor.
  - rewrite filter_In, negb_true_iff, key_eqb_neq. tauto.
  - now apply NoDup_filter.
Qed.

Lemma dedup_snoc (ks : list key) (k : key) :
  dedup (ks ++ [k])
  = if existsb (key_eqb k) ks then dedup ks else (dedup ks ++ [k])%list.
Proof.
  induction ks as [|k0 ks IH]; simpl.
  - reflexivity.
  - rewrite IH. destruct (key_eqb k k0) eqn:E; simpl.
    + destruct (existsb (key_eqb k) ks); [reflexivity|].
      rewrite filter_app. simpl. rewrite E. simpl.
      now rewrite app_nil_r.
    + destruct (existsb (key_eqb k) ks); [reflexivity|].
      rewrite filter_app. simpl. rewrite E. reflexivity.
Qed.

Lemma group_snoc (k : key) (l : list occurrence) (o : occurrence) :
  group k (l ++ [o])
  = (group k l ++ if key_eqb (occ_key o) k then [o] else [])%list.
Proof.
  unfold group. rewrite filter_app. simpl.
  now destruct (key_eqb (occ_key o) k).
Qed.

Lemma group_nil_iff (k : key) (l : list occurrence) :
  group k l = [] <-> ~ In k (map occ_key l).
Proof.
  unfold group. induction l as [|o l IH]; simpl.
  - tauto.
  - destruct (key_eqb (occ_key o) k) eqn:E.
    + apply key_eqb_eq in E. split; [discriminate|tauto].
    + apply key_eqb_neq in E. rewrite IH. tauto.
Qed.

Lemma mem_keys_iff (k : key) (l : list occurrence) :
  existsb (key_eqb k) (dedup (map occ_key l)) = true
  <-> In k (map occ_key l).
Proof.
  rewrite (existsb_eqb key_eqb key_eqb_eq). apply dedup_In.
Qed.

Lemma merge_group_snoc (g : list occurrence) (o : occurrence) :
  g <> [] ->
  merge_group (g ++ [o])
  = {| Item.name := Item.name (merge_group g);
       Item.amount := fadd (Item.amount (merge_group g)) (occ_amount o);
       Item.unit := Item.unit (merge_group g);
       Item.recipes := (Item.recipes (merge_group g) ++ [occ_title o])%list |}.
Proof.
  destruct g as [|o0 g]; [congruence|]. intros _.
  unfold merge_group, sum_from. simpl.
  rewrite !map_app, fold_left_app. reflexivity.
Qed.

(** The dict the loops build, in closed form. *)
Lemma aggregate_closed_form (occs : list occurrence) :
  aggregate occs
  = map (fun k => (k, merge_group (group k occs)))
      (dedup (map occ_key occs)).
Proof.
  unfold aggregate.
  induction occs as [|o l IH] using rev_ind.
  - reflexivity.
  - rewrite fold_left_app. simpl. rewrite IH.
    unfold add_occurrence, add_ingredient.
    fold (occ_key o). fold (occ_amount o).
    rewrite (get_tabulate key_eqb key_eqb_eq).
    rewrite map_app. simpl. rewrite dedup_snoc.
    destruct (existsb (key_eqb (occ_key o)) (dedup (map occ_key l)))
      eqn:Hmem.
    + assert (Hin : In (occ_key o) (map occ_key l))
        by now apply mem_keys_iff.
      assert (Hex : existsb (key_eqb (occ_key o)) (map occ_key l) = true)
        by now apply (existsb_eqb key_eqb key_eqb_eq).
      rewrite Hex.
      apply (set_tabulate_old key_eqb key_eqb_eq).
      * apply dedup_NoDup.
      * now apply dedup_In.
      * rewrite group_snoc, key_eqb_refl.
        apply merge_group_snoc. rewrite group_nil_iff. tauto.
      * intros k' Hne _. rewrite group_snoc.
        assert (E : key_eqb (occ_key o) k' = false)
          by (apply key_eqb_neq; congruence).
        now rewrite E, app_nil_r.
    + assert (Hnin : ~ In (occ_key o) (map occ_key l)).
      { rewrite <- mem_keys_iff. congruence. }
      assert (Hex : existsb (key_eqb (occ_key o)) (map occ_key l) = false).
      { destruct (existsb _ (map occ_key l)) eqn:E; [|reflexivity].
        apply (existsb_eqb key_eqb key_eqb_eq) in E. contradiction. }
      rewrite Hex.
      rewrite (set_tabulate_new key_eqb key_eqb_eq)
        by now rewrite dedup_In.
      rewrite map_app. simpl. f_equal.
      * apply map_ext_in. intros k' Hk'. rewrite group_snoc.
        assert (E : key_eqb (occ_key o) k' = false).
        { apply key_eqb_neq. intros Heq. apply Hnin.
          rewrite Heq. now apply dedup_In. }
        now rewrite E, app_nil_r.
      * rewrite group_snoc, key_eqb_refl.
        apply group_nil_iff in Hnin. rewrite Hnin. reflexivity.
Qed.

Lemma aggregate_values (occs : list occurrence) :
  Py.values (aggregate occs) = merged_items occs.
Proof.
  rewrite aggregate_closed_form. unfold Py.values, merged_items.
  rewrite map_map. reflexivity.
Qed.
End AggregateFacts.

(** ** [shopping_list] on a well-formed selection *)

Section ShoppingListFacts.
Context {N : PyNum}.

Lemma mapM_pairs {A B} (f : A -> result B) (l : list A)
    (ps : list (A * B)) :
  mapM (fun a => v <- f a ;; ret (a, v)) l = inr ps ->
  map fst ps = l /\ Forall (fun p => f (fst p) = inr (snd p)) ps.
Proof.
  revert ps. induction l as [|a l IH]; simpl; intros ps H.
  - injection H as <-. split; constructor.
  - destruct (f a) as [e|v] eqn:Ha; simpl in H; [discriminate|].
    destruct (mapM _ l) as [e|ps'] eqn:Hl; simpl in H; [discriminate|].
    injection H as <-. destruct (IH ps' eq_refl) as [H1 H2].
    simpl. split; [now f_equal|]. constructor; auto.
Qed.

Lemma selections_inv (req : request) (sels : list (Z * Z)) :
  selections req = inr sels ->
  mapM int (MultiDict.getlist "recipes" (form req)) = inr (map fst sels)
  /\ Forall (fun p => desired_servings req (fst p) = inr (snd p)) sels.
Proof.
  unfold selections. intros H.
  destruct (mapM int _) as [e|ids] eqn:Hids; simpl in H; [discriminate|].
  apply mapM_pairs in H. destruct H as [<- H]. auto.
Qed.

Lemma servings_loop (req : request) (sels : list (Z * Z)) :
  Forall (fun p => desired_servings req (fst p) = inr (snd p)) sels ->
  forall acc, consistent req acc ->
  exists sm,
    foldM (set_servings req) (map fst sels) acc = inr sm
    /\ consistent req sm
    /\ (forall id, In id (map fst sels) \/ Py.get Z.eqb id acc <> None ->
                   Py.get Z.eqb id sm <> None).
Proof.
  induction 1 as [|[id v] sels Hp Hall IH]; simpl; intros acc Hacc.
  - exists acc. repeat split; auto. intros id [[]|H]; exact H.
  - unfold set_servings at 1. simpl in Hp. rewrite Hp. simpl.
    destruct (IH (Py.set Z.eqb id v acc)) as [sm [H1 [H2 H3]]].
    + intros id' v' Hget.
      destruct (Z.eq_dec id id') as [<-|Hne].
      * rewrite (get_set_same Z.eqb Z.eqb_eq) in Hget. congruence.
      * rewrite (get_set_other Z.eqb Z.eqb_eq) in Hget by assumption.
        now apply Hacc.
    + exists sm. repeat split; auto.
      intros id' Hid'. apply H3.
      destruct (Z.eq_dec id id') as [<-|Hne].
      * right. rewrite (get_set_same Z.eqb Z.eqb_eq). discriminate.
      * destruct Hid' as [[Heq|Hin]|Hget]; [congruence|now left|].
        right. now rewrite (get_set_other Z.eqb Z.eqb_eq).
Qed.

Lemma servings_map_built (req : request) (sels : list (Z * Z)) :
  Forall (fun p => desired_servings req (fst p) = inr (snd p)) sels ->
  exists sm,
    foldM (set_servings req) (map fst sels) [] = inr sm
    /\ Forall (fun p => Py.get Z.eqb (fst p) sm = Some (snd p)) sels.
Proof.
  intros Hall.
  destruct (servings_loop req sels Hall []) as [sm [H1 [H2 H3]]].
  - intros id v H. discriminate.
  - exists sm. split; [assumption|].
    rewrite Forall_forall in *. intros p Hp.
    destruct (Py.get Z.eqb (fst p) sm) as [v|] eqn:Hget.
    + apply H2 in Hget. rewrite (Hall p Hp) in Hget. congruence.
    + exfalso. apply (H3 (fst p)); [|assumption].
      left. now apply in_map.
Qed.

Lemma multiplier_scaling (v : Z) (stored : option Z) :
  multiplier (ret (Some v)) stored = inr (scaling v stored).
Proof.
  unfold multiplier, scaling. destruct stored as [s|]; simpl.
  - now destruct (s =? 0).
  - reflexivity.
Qed.

Lemma add_recipe_occurrences (d : DB) (sm : list (Z * Z)) (p : Z * Z)
    (acc : totals) :
  Py.get Z.eqb (fst p) sm = Some (snd p) ->
  add_recipe d sm acc (fst p)
  = inr (fold_left add_occurrence (occurrences_of d p) acc).
Proof.
  intros Hget. unfold add_recipe, occurrences_of.
  destruct (query_get d (fst p)) as [recipe|]; [|reflexivity].
  unfold servings_getitem. rewrite Hget.
  fold (@ret (option Z) (Some (snd p))).
  rewrite multiplier_scaling. simpl. unfold ret. f_equal.
  generalize (ingredients_of d (Recipe.id recipe)) as ings.
  intros ings. revert acc.
  induction ings as [|ing ings IH]; simpl; intros acc; [reflexivity|].
  apply IH.
Qed.

Lemma totals_loop (d : DB) (sm : list (Z * Z)) (sels : list (Z * Z)) :
  Forall (fun p => Py.get Z.eqb (fst p) sm = Some (snd p)) sels ->
  forall acc,
    foldM (add_recipe d sm) (map fst sels) acc
    = inr (fold_left add_occurrence (occurrences d sels) acc).
Proof.
  induction 1 as [|p sels Hp Hall IH]; simpl; intros acc.
  - reflexivity.
  - rewrite (add_recipe_occurrences d sm p acc Hp). simpl.
    rewrite IH. unfold occurrences. simpl.
    now rewrite fold_left_app.
Qed.

(** The handler on a POST whose form holds a well-formed selection:
    it returns, and its items are [shopping_items]. *)
Lemma shopping_list_post (req : request) (d : DB) (sels : list (Z * Z)) :
  method req = POST ->
  selections req = inr sels ->
  shopping_list req d
  = inr (Py.sorted title_le (recipes d), shopping_items d sels,
         map fst sels).
Proof.
  intros Hm Hsel. apply selections_inv in Hsel.
  destruct Hsel as [Hids Hall].
  destruct (servings_map_built req sels Hall) as [sm [Hsm Hget]].
  unfold shopping_list. rewrite Hm, Hids. simpl.
  rewrite Hsm. simpl.
  rewrite (totals_loop d sm sels Hget). simpl.
  fold (aggregate (occurrences d sels)).
  rewrite aggregate_values. reflexivity.
Qed.



End ShoppingListFacts.

(** ** The shopping items *)

Section ItemFacts.
Context {N : PyNum}.

Lemma group_head (k : key) (occs : list occurrence) (o : occurrence)
    (rest : list occurrence) :
  group k occs = o :: rest -> occ_key o = k.
Proof.
  intros H.
  assert (Hin : In o (group k occs)) by (rewrite H; now left).
  apply filter_In in Hin. now apply key_eqb_eq.
Qed.

Lemma group_cons (k : key) (occs : list occurrence) :
  In k (map occ_key occs) -> exists o rest, group k occs = o :: rest.
Proof.
  intros Hin. destruct (group k occs) as [|o rest] eqn:Hg.
  - apply group_nil_iff in Hg. contradiction.
  - eauto.
Qed.

Lemma item_key_merge (k : key) (occs : list occurrence) :
  In k (map occ_key occs) -> item_key (merge_group (group k occs)) = k.
Proof.
  intros Hin. destruct (group_cons k occs Hin) as [o [rest Hg]].
  rewrite Hg. apply group_head in Hg. exact Hg.
Qed.

Lemma merged_items_In (it : Item.t) (occs : list occurrence) :
  In it (merged_items occs) <->
  exists k, In k (map occ_key occs) /\ it = merge_group (group k occs).
Proof.
  unfold merged_items. rewrite in_map_iff. split.
  - intros [k [<- Hk]]. exists k. split; [now apply dedup_In|reflexivity].
  - intros [k [Hk ->]]. exists k. split; [reflexivity|now apply dedup_In].
Qed.

Lemma merged_items_keys (occs : list occurrence) :
  map item_key (merged_items occs) = dedup (map occ_key occs).
Proof.
  unfold merged_items. rewrite map_map.
  rewrite <- (map_id (dedup (map occ_key occs))) at 2.
  apply map_ext_in. intros k Hk. apply item_key_merge.
  now apply dedup_In.
Qed.

Lemma filter_NoDup_key (k : key) (ks : list key) :
  NoDup ks ->
  filter (fun k' => key_eqb k' k) ks
  = if existsb (key_eqb k) ks then [k] else [].
Proof.
  induction 1 as [|k0 ks Hnin Hnd IH]; simpl.
  - reflexivity.
  - rewrite (key_eqb_sym k k0). destruct (key_eqb k0 k) eqn:E; simpl.
    + apply key_eqb_eq in E. subst k0. rewrite IH.
      destruct (existsb (key_eqb k) ks) eqn:Hex; [|reflexivity].
      apply (existsb_eqb key_eqb key_eqb_eq) in Hex. contradiction.
    + exact IH.
Qed.

(** One item per key. *)
Lemma merged_items_by_key (k : key) (occs : list occurrence) :
  filter (fun it => key_eqb (item_key it) k) (merged_items occs)
  = if existsb (key_eqb k) (map occ_key occs)
    then [merge_group (group k occs)] else [].
Proof.
  unfold merged_items.
  assert (H : forall ks, (forall k', In k' ks -> In k' (map occ_key occs)) ->
    filter (fun it => key_eqb (item_key it) k)
      (map (fun k' => merge_group (group k' occs)) ks)
    = map (fun k' => merge_group (group k' occs))
        (filter (fun k' => key_eqb k' k) ks)).
  { induction ks as [|k0 ks IH]; simpl; intros Hks; [reflexivity|].
    rewrite item_key_merge by auto.
    destruct (key_eqb k0 k); simpl; rewrite IH; auto. }
  rewrite H by (intros k'; apply dedup_In).
  rewrite filter_NoDup_key by apply dedup_NoDup.
  destruct (existsb (key_eqb k) (dedup (map occ_key occs))) eqn:E1;
    destruct (existsb (key_eqb k) (map occ_key occs)) eqn:E2;
    try reflexivity; exfalso.
  - apply mem_keys_iff in E1.
    apply (existsb_eqb key_eqb key_eqb_eq) in E1. congruence.
  - apply (existsb_eqb key_eqb key_eqb_eq) in E2.
    apply mem_keys_iff in E2. congruence.
Qed.

Lemma name_le_same_key (x y : Item.t) (k : key) :
  key_eqb (item_key x) k = true -> key_eqb (item_key y) k = true ->
  name_le x y = true.
Proof.
  intros Hx Hy. apply key_eqb_eq in Hx, Hy. unfold name_le.
  assert (E : Py.lower (Item.name x) = Py.lower (Item.name y)).
  { change (fst (item_key x) = fst (item_key y)). congruence. }
  rewrite E. apply leb_refl.
Qed.

Lemma shopping_items_by_key (k : key) (d : DB) (sels : list (Z * Z)) :
  filter (fun it => key_eqb (item_key it) k) (shopping_items d sels)
  = if existsb (key_eqb k) (map occ_key (occurrences d sels))
    then [merge_group (group k (occurrences d sels))] else [].
Proof.
  unfold shopping_items. rewrite sorted_filter.
  - apply merged_items_by_key.
  - intros x y Hx Hy. now apply (name_le_same_key x y k).
Qed.

Lemma shopping_items_In (it : Item.t) (d : DB) (sels : list (Z * Z)) :
  In it (shopping_items d sels) <->
  exists k, In k (map occ_key (occurrences d sels))
            /\ it = merge_group (group k (occurrences d sels)).
Proof.
  unfold shopping_items. rewrite sorted_In. apply merged_items_In.
Qed.

Lemma name_le_total (a b : Item.t) : name_le a b = true \/ name_le b a = true.
Proof. apply String.leb_total. Qed.

Lemma name_le_trans (a b c : Item.t) :
  name_le a b = true -> name_le b c = true -> name_le a c = true.
Proof. apply leb_trans. Qed.
End ItemFacts.

(** ** Claims about the aggregation *)

(** C1.  On a POST with a well-formed selection, every ingredient
    occurrence of a resolved recipe is filed under the key (lowercased
    name, unit or the empty string); the items hold exactly one item per
    key that occurs, so two occurrences share an item exactly when their
    keys are equal; and the amount of an item is the sum, from the left
    and in visiting order, of [(amount or 0) * multiplier] over the
    occurrences of its key. *)
Theorem aggregation_merges_by_key {N : PyNum} (req : request) (d : DB)
    (sels : list (Z * Z)) :
  method req = POST ->
  selections req = inr sels ->
  exists items,
    shopping_list req d
    = inr (Py.sorted title_le (recipes d), items, map fst sels)
    /\ (forall o, In o (occurrences d sels) ->
          occ_key o
          = (Py.lower (Ingredient.name (occ_ingredient o)),
             match Ingredient.unit (occ_ingredient o) with
             | Some u => u
             | None => ""
             end))
    /\ (forall k,
          List.length (filter (fun it => key_eqb (item_key it) k) items)
          = if existsb (key_eqb k) (map occ_key (occurrences d sels))
            then 1%nat else 0%nat)
    /\ (forall it, In it items ->
          exists o rest,
            group (item_key it) (occurrences d sels) = o :: rest
            /\ Item.amount it
               = fold_left fadd (map occ_amount rest) (occ_amount o)
            /\ forall o', In o' (o :: rest) ->
                 occ_amount o'
                 = fmul (match Ingredient.amount (occ_ingredient o') with
                         | Some a => if ftruthy a then a else fzero
                         | None => fzero
                         end) (occ_multiplier o')).
Proof.
  intros Hm Hsel. exists (shopping_items d sels).
  split; [now apply shopping_list_post|].
  split; [|split].
  - intros o _. unfold occ_key, key_of, unit_or_empty. f_equal.
    destruct (Ingredient.unit (occ_ingredient o)) as [[|c u]|]; reflexivity.
  - intros k. rewrite shopping_items_by_key.
    now destruct (existsb _ _).
  - intros it Hit. apply shopping_items_In in Hit.
    destruct Hit as [k [Hk ->]].
    rewrite (item_key_merge k _ Hk).
    destruct (group_cons k _ Hk) as [o [rest Hg]].
    exists o, rest. rewrite Hg. repeat split.
Qed.

Lemma aggregation_merges_by_key_witness :
  method Sample.select_a_b = POST
  /\ @selections QNum.num Sample.select_a_b = inr [(1, 4); (2, 4)]
  /\ exists items,
       shopping_list Sample.select_a_b Sample.db_ab
       = inr (Py.sorted title_le (recipes Sample.db_ab), items, [1; 2]).
Proof.
  split; [reflexivity|]. split; [reflexivity|].
  destruct (aggregation_merges_by_key Sample.select_a_b Sample.db_ab
              [(1, 4); (2, 4)] eq_refl eq_refl) as [items [H _]].
  exists items. exact H.
Defined.

Lemma StronglySorted_map {A B} (f : A -> B) (R : B -> B -> Prop)
    (l : list A) :
  StronglySorted (fun a b => R (f a) (f b)) l -> StronglySorted R (map f l).
Proof.
  induction 1 as [|x l Hs IH Hall]; simpl; constructor; auto.
  rewrite Forall_forall in *. intros y Hy.
  apply in_map_iff in Hy. destruct Hy as [z [<- Hz]]. auto.
Qed.

(** C4.  On a POST with a well-formed selection, the items are sorted
    ascending by lowercased name; the items that tie on the lowercased
    name follow one another in the order their keys first appeared; and
    each item has the name (in its original casing) and the unit of the
    first occurrence of its key, and the recipe titles of all the
    occurrences of its key, the first one first and each later one
    appended. *)
Theorem shopping_items_sorted_stable {N : PyNum} (req : request) (d : DB)
    (sels : list (Z * Z)) :
  method req = POST ->
  selections req = inr sels ->
  exists items,
    shopping_list req d
    = inr (Py.sorted title_le (recipes d), items, map fst sels)
    /\ StronglySorted (fun a b => String.leb a b = true)
         (map (fun it => Py.lower (Item.name it)) items)
    /\ (forall n,
          map item_key
            (filter (fun it => String.eqb (Py.lower (Item.name it)) n) items)
          = filter (fun k => String.eqb (fst k) n)
              (dedup (map occ_key (occurrences d sels))))
    /\ (forall it, In it items ->
          exists o rest,
            group (item_key it) (occurrences d sels) = o :: rest
            /\ Item.name it = Ingredient.name (occ_ingredient o)
            /\ Item.unit it
               = unit_or_empty (Ingredient.unit (occ_ingredient o))
            /\ Item.recipes it
               = (occ_title o :: map occ_title rest)).
Proof.
  intros Hm Hsel. exists (shopping_items d sels).
  split; [now apply shopping_list_post|].
  split; [|split].
  - apply StronglySorted_map. unfold shopping_items.
    apply (sorted_sorted name_le name_le_total name_le_trans).
  - intros n. unfold shopping_items. rewrite sorted_filter.
    + rewrite <- merged_items_keys.
      generalize (merged_items (occurrences d sels)) as l.
      induction l as [|it l IH]; simpl; [reflexivity|].
      destruct (String.eqb (Py.lower (Item.name it)) n); simpl;
        now rewrite IH.
    + intros x y Hx Hy. apply String.eqb_eq in Hx, Hy.
      unfold name_le. rewrite Hx, Hy. apply leb_refl.
  - intros it Hit. apply shopping_items_In in Hit.
    destruct Hit as [k [Hk ->]].
    rewrite (item_key_merge k _ Hk).
    destruct (group_cons k _ Hk) as [o [rest Hg]].
    exists o, rest. rewrite Hg. repeat split.
Qed.

Lemma shopping_items_sorted_stable_witness :
  method Sample.select_b_a = POST
  /\ @selections QNum.num Sample.select_b_a = inr [(2, 4); (1, 4)]
  /\ exists items,
       shopping_list Sample.select_b_a Sample.db_ab
       = inr (Py.sorted title_le (recipes Sample.db_ab), items, [2; 1]).
Proof.
  split; [reflexivity|]. split; [reflexivity|].
  destruct (shopping_items_sorted_stable Sample.select_b_a Sample.db_ab
              [(2, 4); (1, 4)] eq_refl eq_refl) as [items [H _]].
  exists items. exact H.
Defined.





(** ** Reordering the selection *)

Lemma Permutation_filter {A} (p : A -> bool) (l l' : list A) :
  Permutation l l' -> Permutation (filter p l) (filter p l').
Proof.
  induction 1 as [|x l l' Hp IH|x y l|l l' l'' H1 IH1 H2 IH2]; simpl.
  - constructor.
  - destruct (p x); [now constructor|assumption].
  - destruct (p x), (p y); try reflexivity. apply perm_swap.
  - now transitivity (filter p l').
Qed.

Section SumFacts.
Context {A : Type} (add : A -> A -> A).
Hypothesis add_assoc : forall x y z, add x (add y z) = add (add x y) z.
Hypothesis add_comm : forall x y, add x y = add y x.

Lemma fold_left_perm (l l' : list A) :
  Permutation l l' -> forall x, fold_left add l x = fold_left add l' x.
Proof.
  induction 1 as [|a l l' Hp IH|a b l|l l' l'' H1 IH1 H2 IH2];
    simpl; intros x.
  - reflexivity.
  - apply IH.
  - f_equal. rewrite <- !add_assoc. f_equal. apply add_comm.
  - now rewrite IH1.
Qed.

(** A sum does not depend on which summand comes first. *)
Lemma sum_perm (a b : A) (l l' : list A) :
  Permutation (a :: l) (b :: l') ->
  fold_left add l a = fold_left add l' b.
Proof.
  intros Hp.
  destruct (Permutation_vs_cons_inv Hp) as [l1 [l2 Heq]].
  destruct l1 as [|a' l1]; simpl in Heq; injection Heq as Ha Hl;
    subst.
  - apply Permutation_cons_inv in Hp. now apply fold_left_perm.
  - symmetry in Hp.
    apply (Permutation_cons_app_inv (a' :: l1)) in Hp. simpl in Hp.
    rewrite (fold_left_perm _ _ Hp). simpl.
    rewrite (fold_left_perm (l1 ++ b :: l2) (b :: l1 ++ l2))
      by (symmetry; apply Permutation_middle).
    simpl. f_equal. apply add_comm.
Qed.
End SumFacts.

Section PermutationFacts.
Context {N : PyNum}.

Lemma occurrences_perm (d : DB) (sels sels' : list (Z * Z)) :
  Permutation sels sels' ->
  Permutation (occurrences d sels) (occurrences d sels').
Proof. apply Permutation_flat_map. Qed.

Lemma dedup_perm (ks ks' : list key) :
  Permutation ks ks' -> Permutation (dedup ks) (dedup ks').
Proof.
  intros Hp. apply NoDup_Permutation; try apply dedup_NoDup.
  intros k. rewrite !dedup_In.
  split; apply Permutation_in; [assumption|now symmetry].
Qed.

Lemma shopping_items_keys (d : DB) (sels : list (Z * Z)) :
  Permutation (map item_key (shopping_items d sels))
    (dedup (map occ_key (occurrences d sels))).
Proof.
  unfold shopping_items. rewrite <- merged_items_keys.
  apply Permutation_map, sorted_perm.
Qed.

Lemma shopping_items_names_sorted (d : DB) (sels : list (Z * Z)) :
  StronglySorted (fun a b => String.leb a b = true)
    (map (fun it => Py.lower (Item.name it)) (shopping_items d sels)).
Proof.
  apply StronglySorted_map. unfold shopping_items.
  apply (sorted_sorted name_le name_le_total name_le_trans).
Qed.
End PermutationFacts.

(** C5, as the code has it.  When two well-formed selections are
    permutations of one another, the two item sequences have the same
    keys (so the same length), the same lowercased names at the same
    positions and the same unit under each key; under each key the two
    items are merged from the same occurrences, so their recipe titles
    are a permutation of one another and their amounts are sums of the
    same summands, equal whenever addition is associative and
    commutative. *)
Theorem aggregation_permutation {N : PyNum} (req req' : request) (d : DB)
    (sels sels' : list (Z * Z)) :
  method req = POST -> method req' = POST ->
  selections req = inr sels -> selections req' = inr sels' ->
  Permutation sels sels' ->
  exists items items',
    shopping_list req d
    = inr (Py.sorted title_le (recipes d), items, map fst sels)
    /\ shopping_list req' d
       = inr (Py.sorted title_le (recipes d), items', map fst sels')
    /\ Permutation (map item_key items) (map item_key items')
    /\ map (fun it => Py.lower (Item.name it)) items
       = map (fun it => Py.lower (Item.name it)) items'
    /\ (forall it, In it items ->
          exists it',
            In it' items'
            /\ item_key it' = item_key it
            /\ Item.unit it' = Item.unit it
            /\ Permutation (Item.recipes it) (Item.recipes it')
            /\ Permutation (group (item_key it) (occurrences d sels))
                 (group (item_key it) (occurrences d sels'))
            /\ ((forall x y z, fadd x (fadd y z) = fadd (fadd x y) z) ->
                (forall x y, fadd x y = fadd y x) ->
                Item.amount it' = Item.amount it)).
Proof.
  intros Hm Hm' Hsel Hsel' Hp.
  exists (shopping_items d sels), (shopping_items d sels').
  split; [now apply shopping_list_post|].
  split; [now apply shopping_list_post|].
  pose proof (occurrences_perm d sels sels' Hp) as Hocc.
  assert (Hkeys : Permutation (map item_key (shopping_items d sels))
                    (map item_key (shopping_items d sels'))).
  { rewrite !shopping_items_keys. apply dedup_perm.
    now apply Permutation_map. }
  split; [exact Hkeys|]. split.
  - apply sorted_unique; try apply shopping_items_names_sorted.
    apply (Permutation_map fst) in Hkeys.
    rewrite !map_map in Hkeys. exact Hkeys.
  - intros it Hit. apply shopping_items_In in Hit.
    destruct Hit as [k [Hk ->]].
    assert (Hk' : In k (map occ_key (occurrences d sels'))).
    { eapply Permutation_in; [|exact Hk]. now apply Permutation_map. }
    exists (merge_group (group k (occurrences d sels'))).
    rewrite !item_key_merge by assumption.
    assert (Hg : Permutation (group k (occurrences d sels))
                   (group k (occurrences d sels')))
      by now apply Permutation_filter.
    split; [apply shopping_items_In; eauto|].
    split; [reflexivity|].
    destruct (group_cons k _ Hk) as [o [rest Ho]].
    destruct (group_cons k _ Hk') as [o' [rest' Ho']].
    split.
    { rewrite Ho, Ho'. simpl.
      apply group_head in Ho, Ho'. unfold occ_key, key_of in Ho, Ho'.
      congruence. }
    split; [now apply Permutation_map|].
    split; [exact Hg|].
    intros Hassoc Hcomm. rewrite Ho, Ho' in *. simpl. unfold sum_from.
    apply (sum_perm fadd Hassoc Hcomm).
    change (Permutation (map occ_amount (o' :: rest'))
              (map occ_amount (o :: rest))).
    apply Permutation_map. now symmetry.
Qed.

Lemma aggregation_permutation_witness :
  method Sample.select_a_b = POST /\ method Sample.select_b_a = POST
  /\ @selections QNum.num Sample.select_a_b = inr [(1, 4); (2, 4)]
  /\ @selections QNum.num Sample.select_b_a = inr [(2, 4); (1, 4)]
  /\ Permutation [(1, 4); (2, 4)] [(2, 4); (1, 4)]
  /\ exists items items',
       shopping_list Sample.select_a_b Sample.db_ab
       = inr (Py.sorted title_le (recipes Sample.db_ab), items, [1; 2])
       /\ shopping_list Sample.select_b_a Sample.db_ab
          = inr (Py.sorted title_le (recipes Sample.db_ab), items', [2; 1])
       /\ Permutation (map item_key items) (map item_key items').
Proof.
  repeat (split; [reflexivity|]).
  split; [apply perm_swap|].
  destruct (aggregation_permutation Sample.select_a_b Sample.select_b_a
              Sample.db_ab [(1, 4); (2, 4)] [(2, 4); (1, 4)]
              eq_refl eq_refl eq_refl eq_refl (perm_swap _ _ _))
    as [items [items' [H1 [H2 [H3 _]]]]].
  exists items, items'. auto.
Defined.

(** The exact rationals add associatively and commutatively. *)
Lemma QNum_fadd_comm (x y : @float QNum.num) : fadd x y = fadd y x.
Proof.
  change (Qred (Qplus x y) = Qred (Qplus y x)).
  apply Qred_complete. apply Qplus_comm.
Qed.

Lemma QNum_fadd_assoc (x y z : @float QNum.num) :
  fadd x (fadd y z) = fadd (fadd x y) z.
Proof.
  change (Qred (Qplus x (Qred (Qplus y z)))
          = Qred (Qplus (Qred (Qplus x y)) z)).
  apply Qred_complete. rewrite !Qred_correct. apply Qplus_assoc.
Qed.

(** C5 as stated fails: selecting A then B, or B then A, gives the sugar
    item the name and the recipe order of whichever came first. *)
Lemma aggregation_order_dependent :
  Permutation (MultiDict.getlist "recipes" (form Sample.select_a_b))
    (MultiDict.getlist "recipes" (form Sample.select_b_a))
  /\ @selections QNum.num Sample.select_a_b = inr [(1, 4); (2, 4)]
  /\ @selections QNum.num Sample.select_b_a = inr [(2, 4); (1, 4)]
  /\ map (fun it => (Item.name it, Item.recipes it))
       (items_of (shopping_list Sample.select_a_b Sample.db_ab))
     = [("Flour", ["B"]); ("Salt", ["A"]); ("Sugar", ["A"; "B"])]
  /\ map (fun it => (Item.name it, Item.recipes it))
       (items_of (shopping_list Sample.select_b_a Sample.db_ab))
     = [("Flour", ["B"]); ("Salt", ["A"]); ("sugar", ["B"; "A"])]
  /\ items_of (shopping_list Sample.select_a_b Sample.db_ab)
     <> items_of (shopping_list Sample.select_b_a Sample.db_ab).
Proof.
  split; [apply perm_swap|].
  repeat (split; [reflexivity|]).
  intros H.
  apply (f_equal (map (fun it => Item.name it))) in H.
  vm_compute in H. discriminate.
Qed.

(** ** Claims about scaling *)

Lemma scaled_truthy {N : PyNum} (ing : Ingredient.t) (a m : float) :
  Ingredient.amount ing = Some a -> ftruthy a = true ->
  Ingredient.scaled ing m
  = {| Scaled.name := Ingredient.name ing;
       Scaled.amount := Some (round2 (fmul a m));
       Scaled.unit := Ingredient.unit ing |}.
Proof.
  intros Ha Ht. unfold Ingredient.scaled. now rewrite Ha, Ht.
Qed.

Lemma scaled_absent {N : PyNum} (ing : Ingredient.t) (m : float) :
  Ingredient.amount ing = None ->
  Ingredient.scaled ing m
  = {| Scaled.name := Ingredient.name ing;
       Scaled.amount := None;
       Scaled.unit := Ingredient.unit ing |}.
Proof.
  intros Ha. unfold Ingredient.scaled. now rewrite Ha.
Qed.

(** C2 at the failing input.  An ingredient whose amount is present and
    is zero is scaled to an absent amount, whatever the multiplier: the
    test [if self.amount] takes 0.0 for a missing value.  Name and unit
    pass through. *)
Theorem scaled_zero_amount_is_absent {N : PyNum} (id recipe_id : Z)
    (name : string) (unit : option string) (m : float) :
  Ingredient.scaled
    {| Ingredient.id := id; Ingredient.recipe_id := recipe_id;
       Ingredient.name := name; Ingredient.amount := Some fzero;
       Ingredient.unit := unit |} m
  = {| Scaled.name := name; Scaled.amount := None; Scaled.unit := unit |}.
Proof.
  unfold Ingredient.scaled. simpl. now rewrite ftruthy_zero.
Qed.

(** The salt of recipe A, stored with amount 0 by [new_recipe], scaled
    by 2: the amount is absent, not [round(0 * 2, 2)]. *)
Lemma scaled_salt :
  In Sample.salt (ingredients Sample.db_ab)
  /\ Scaled.amount (Ingredient.scaled Sample.salt 2%Q) = None
  /\ @round2 QNum.num (@fmul QNum.num 0%Q 2%Q) = 0%Q.
Proof.
  split; [right; left; reflexivity|]. split; reflexivity.
Qed.



(** ** Trimming *)

Lemma lstrip_idem (s : string) : Py.lstrip (Py.lstrip s) = Py.lstrip s.
Proof.
  induction s as [|c s IH]; simpl; [reflexivity|].
  destruct (Py.is_space c) eqn:E; [exact IH|].
  simpl. now rewrite E.
Qed.

Lemma rstrip_idem (s : string) : Py.rstrip (Py.rstrip s) = Py.rstrip s.
Proof.
  induction s as [|c s IH]; simpl; [reflexivity|].
  destruct (Py.rstrip s) as [|c' r] eqn:Hr.
  - destruct (Py.is_space c) eqn:E; simpl; [reflexivity|now rewrite E].
  - change (Py.rstrip (String c (String c' r)))
      with (match Py.rstrip (String c' r) with
            | EmptyString =>
                if Py.is_space c then EmptyString else String c EmptyString
            | r0 => String c r0
            end).
    now rewrite IH.
Qed.

Lemma lstrip_rstrip (s : string) :
  Py.lstrip (Py.rstrip s) = Py.rstrip (Py.lstrip s).
Proof.
  induction s as [|c s IH]; simpl; [reflexivity|].
  destruct (Py.is_space c) eqn:E.
  - rewrite <- IH. destruct (Py.rstrip s) as [|c' r]; simpl.
    + reflexivity.
    + now rewrite E.
  - change (Py.rstrip (String c s))
      with (match Py.rstrip s with
            | EmptyString =>
                if Py.is_space c then EmptyString else String c EmptyString
            | r0 => String c r0
            end).
    rewrite E. destruct (Py.rstrip s); simpl; now rewrite E.
Qed.

Lemma strip_idem (s : string) : Py.strip (Py.strip s) = Py.strip s.
Proof.
  unfold Py.strip.
  now rewrite lstrip_rstrip, lstrip_idem, rstrip_idem.
Qed.

Lemma truthy_nonempty (s : string) : Py.truthy s = true <-> s <> "".
Proof.
  destruct s; simpl; split; congruence.
Qed.

(** ** The form handlers *)

Section HandlerFacts.
Context {N : PyNum}.

Lemma ingredient_loop_names (rows : list (string * (string * string)))
    (ings : list new_ingredient) :
  ingredient_loop rows = inr ings ->
  map row_name ings
  = map Py.strip (filter (fun n => Py.truthy (Py.strip n)) (map fst rows)).
Proof.
  revert ings.
  induction rows as [|[name [amount unit]] rows IH]; simpl; intros ings H.
  - injection H as <-. reflexivity.
  - destruct (Py.truthy (Py.strip name)); [|now apply IH].
    destruct (if Py.truthy amount then _ else _) as [e|a];
      simpl in H; [discriminate|].
    destruct (ingredient_loop rows) as [e|rest]; simpl in H;
      [discriminate|].
    injection H as <-. simpl. f_equal. now apply IH.
Qed.

Lemma form_ingredients_names (md : multidict) (ings : list new_ingredient) :
  form_ingredients md = inr ings -> map row_name ings = kept_names md.
Proof. apply ingredient_loop_names. Qed.

Lemma kept_names_trimmed (md : multidict) (n : string) :
  In n (kept_names md) -> n <> "" /\ Py.strip n = n.
Proof.
  unfold kept_names. intros H. apply in_map_iff in H.
  destruct H as [raw [<- H]]. apply filter_In in H.
  destruct H as [_ H]. split.
  - now apply truthy_nonempty.
  - apply strip_idem.
Qed.

Lemma new_rows_names (rid next : Z) (ings : list new_ingredient) :
  map Ingredient.name (new_rows rid next ings) = map row_name ings.
Proof.
  revert next. induction ings as [|[[n a] u] ings IH]; simpl; intros next.
  - reflexivity.
  - now rewrite IH.
Qed.

Lemma new_rows_recipe (rid next : Z) (ings : list new_ingredient)
    (i : Ingredient.t) :
  In i (new_rows rid next ings) -> Ingredient.recipe_id i = rid.
Proof.
  revert next. induction ings as [|[[n a] u] ings IH]; simpl; intros next.
  - contradiction.
  - intros [<-|H]; [reflexivity|eauto].
Qed.

Lemma query_get_some (d : DB) (id : Z) (r : Recipe.t) :
  query_get d id = Some r -> In r (recipes d) /\ Recipe.id r = id.
Proof.
  unfold query_get. intros H. apply find_some in H.
  destruct H as [H1 H2]. split; [assumption|lia].
Qed.

(** The outcomes of [new_recipe]. *)
Lemma new_recipe_cases (now : Z) (req : request) (d : DB) :
  (exists e, new_recipe now req d = inl e)
  \/ (method req = GET /\ new_recipe now req d = inr (RenderEdit None, d))
  \/ (method req = POST
      /\ exists r ings,
           MultiDict.get "title" (form req) = Some (Recipe.title r)
           /\ form_ingredients (form req) = inr ings
           /\ Recipe.id r = next_id (map Recipe.id (recipes d))
           /\ new_recipe now req d
              = inr (RedirectView (Recipe.id r), session_add r ings d)).
Proof.
  unfold new_recipe. destruct (method req); [right; left; auto|].
  unfold MultiDict.getitem.
  destruct (MultiDict.get "title" (form req)) as [title|]; simpl;
    [|left; eauto].
  destruct (int_field _ _ _) as [e|servings]; simpl; [left; eauto|].
  destruct (opt_int_field "prep_time" _) as [e|prep]; simpl; [left; eauto|].
  destruct (opt_int_field "cook_time" _) as [e|cook]; simpl; [left; eauto|].
  destruct (form_ingredients _) as [e|ings]; simpl; [left; eauto|].
  right; right. split; [reflexivity|].
  match goal with
  | |- context [session_add ?r _ _] => exists r; exists ings
  end.
  repeat split.
Qed.

(** The outcomes of [edit_recipe]. *)
Lemma edit_recipe_cases (id now : Z) (req : request) (d : DB) :
  (exists e, edit_recipe id now req d = inl e)
  \/ (exists recipe,
        method req = GET /\ query_get d id = Some recipe
        /\ edit_recipe id now req d = inr (RenderEdit (Some recipe), d))
  \/ (method req = POST
      /\ exists recipe r ings,
           query_get d id = Some recipe
           /\ MultiDict.get "title" (form req) = Some (Recipe.title r)
           /\ form_ingredients (form req) = inr ings
           /\ Recipe.id r = id
           /\ edit_recipe id now req d
              = inr (RedirectView id, session_update r ings d)).
Proof.
  unfold edit_recipe, get_or_404.
  destruct (query_get d id) as [recipe|] eqn:Hq; simpl; [|left; eauto].
  destruct (query_get_some d id recipe Hq) as [_ Hid].
  destruct (method req); [right; left; eauto|].
  unfold MultiDict.getitem.
  destruct (MultiDict.get "title" (form req)) as [title|]; simpl;
    [|left; eauto].
  destruct (int_field _ _ _) as [e|servings]; simpl; [left; eauto|].
  destruct (opt_int_field "prep_time" _) as [e|prep]; simpl; [left; eauto|].
  destruct (opt_int_field "cook_time" _) as [e|cook]; simpl; [left; eauto|].
  destruct (form_ingredients _) as [e|ings]; simpl; [left; eauto|].
  right; right. split; [reflexivity|].
  rewrite Hid.
  destruct (columns_changed _ _);
    match goal with
    | |- context [session_update ?r _ _] =>
        exists recipe; exists r; exists ings
    end; repeat split; simpl; auto.
Qed.

Lemma delete_recipe_cases (id : Z) (d : DB) :
  (query_get d id = None /\ delete_recipe id d = inl NotFound)
  \/ (exists recipe,
        query_get d id = Some recipe
        /\ delete_recipe id d = inr (RedirectIndex, session_delete recipe d)).
Proof.
  unfold delete_recipe, get_or_404.
  destruct (query_get d id) as [recipe|]; simpl; eauto.
Qed.
End HandlerFacts.

(** ** Claims about create, edit and delete *)

(** C8, as the code has it.  A create or edit submission without a title
    field is refused before anything is stored: the handler raises (the
    bad-request error, or not-found when the edited id does not exist)
    and the stored state is the one it started from. *)
Theorem missing_title_rejected {N : PyNum} (now : Z) (req : request)
    (d : DB) :
  method req = POST ->
  MultiDict.get "title" (form req) = None ->
  new_recipe now req d = inl BadRequestKeyError
  /\ after d (new_recipe now req d) = d
  /\ forall id,
       (edit_recipe id now req d = inl BadRequestKeyError
        \/ edit_recipe id now req d = inl NotFound)
       /\ after d (edit_recipe id now req d) = d.
Proof.
  intros Hm Ht.
  assert (Hnew : new_recipe now req d = inl BadRequestKeyError).
  { unfold new_recipe, MultiDict.getitem. now rewrite Hm, Ht. }
  split; [exact Hnew|]. split; [now rewrite Hnew|].
  intros id.
  assert (Hedit : edit_recipe id now req d = inl BadRequestKeyError
                  \/ edit_recipe id now req d = inl NotFound).
  { unfold edit_recipe, get_or_404, MultiDict.getitem.
    destruct (query_get d id); simpl; [|now right].
    rewrite Hm, Ht. now left. }
  split; [exact Hedit|].
  destruct Hedit as [-> | ->]; reflexivity.
Qed.

Lemma missing_title_rejected_witness :
  method (Sample.post Sample.form_no_title) = POST
  /\ MultiDict.get "title" (form (Sample.post Sample.form_no_title)) = None
  /\ new_recipe 30 (Sample.post Sample.form_no_title) Sample.db_ab
     = inl BadRequestKeyError
  /\ after Sample.db_ab
       (edit_recipe 1 30 (Sample.post Sample.form_no_title) Sample.db_ab)
     = Sample.db_ab.
Proof.
  split; [reflexivity|]. split; [reflexivity|].
  destruct (missing_title_rejected 30 (Sample.post Sample.form_no_title)
              Sample.db_ab eq_refl eq_refl) as [H1 [_ H2]].
  split; [exact H1|]. exact (proj2 (H2 1)).
Defined.

(** C8 as stated fails: a submission whose title is the empty string is
    stored, by create and by edit. *)
Lemma empty_title_persisted :
  MultiDict.get "title" (form (Sample.post Sample.form_untitled)) = Some ""
  /\ map Recipe.title
       (recipes (after (@empty_db QNum.num)
                   (new_recipe 5 (Sample.post Sample.form_untitled)
                      empty_db)))
     = [""]
  /\ map Recipe.title (recipes Sample.db_a) = ["A"]
  /\ map Recipe.title
       (recipes (after Sample.db_a
                   (edit_recipe 1 30 (Sample.post Sample.form_untitled)
                      Sample.db_a)))
     = [""].
Proof.
  repeat split.
Qed.

Lemma filter_all {A} (p : A -> bool) (l : list A) :
  (forall x, In x l -> p x = true) -> filter p l = l.
Proof.
  induction l as [|x l IH]; simpl; intros H; [reflexivity|].
  rewrite (H x) by now left. f_equal. apply IH. intros y Hy. apply H.
  now right.
Qed.

Lemma filter_none {A} (p : A -> bool) (l : list A) :
  (forall x, In x l -> p x = false) -> filter p l = [].
Proof.
  induction l as [|x l IH]; simpl; intros H; [reflexivity|].
  rewrite (H x) by now left. apply IH. intros y Hy. apply H. now right.
Qed.

Section StoreFacts.
Context {N : PyNum}.

Lemma names_trimmed_add (r : Recipe.t) (ings : list new_ingredient)
    (md : multidict) (d : DB) :
  names_trimmed d -> map row_name ings = kept_names md ->
  names_trimmed (session_add r ings d).
Proof.
  intros Hd Hk i Hi. simpl in Hi. apply in_app_or in Hi.
  destruct Hi as [Hi|Hi]; [now apply Hd|].
  apply (kept_names_trimmed md). rewrite <- Hk.
  rewrite <- (new_rows_names (Recipe.id r)
                (next_id (map Ingredient.id (ingredients d)))).
  now apply in_map.
Qed.

Lemma names_trimmed_update (r : Recipe.t) (ings : list new_ingredient)
    (md : multidict) (d : DB) :
  names_trimmed d -> map row_name ings = kept_names md ->
  names_trimmed (session_update r ings d).
Proof.
  intros Hd Hk i Hi. simpl in Hi. apply in_app_or in Hi.
  destruct Hi as [Hi|Hi].
  - apply filter_In in Hi. now apply Hd.
  - apply (kept_names_trimmed md). rewrite <- Hk.
    rewrite <- (new_rows_names (Recipe.id r)
                  (next_id (map Ingredient.id (ingredients d)))).
    now apply in_map.
Qed.

Lemma ingredients_of_update (r : Recipe.t) (ings : list new_ingredient)
    (d : DB) :
  ingredients_of (session_update r ings d) (Recipe.id r)
  = new_rows (Recipe.id r) (next_id (map Ingredient.id (ingredients d)))
      ings.
Proof.
  unfold ingredients_of. simpl. rewrite filter_app.
  rewrite filter_none, filter_all; [reflexivity| |].
  - intros i Hi. apply new_rows_recipe in Hi. lia.
  - intros i Hi. apply filter_In in Hi. destruct Hi as [_ Hi].
    now apply negb_true_iff in Hi.
Qed.
End StoreFacts.

(** C9.  From a store whose ingredient names are all non-empty and
    trimmed, create and edit lead to such a store again, whatever the
    request.  When they succeed on a POST, the names stored for the
    recipe are the trimmed names of the submitted rows whose trimmed
    name is not empty, in order: the other rows are dropped (create
    appends them to the table; edit makes them the whole ingredient set
    of the recipe). *)
Theorem ingredient_names_trimmed {N : PyNum} (d : DB) (now : Z)
    (req : request) :
  names_trimmed d ->
  names_trimmed (after d (new_recipe now req d))
  /\ (forall resp d',
        method req = POST ->
        new_recipe now req d = inr (resp, d') ->
        map Ingredient.name (ingredients d')
        = (map Ingredient.name (ingredients d) ++ kept_names (form req))%list)
  /\ forall id,
       names_trimmed (after d (edit_recipe id now req d))
       /\ (forall resp d',
             method req = POST ->
             edit_recipe id now req d = inr (resp, d') ->
             map Ingredient.name (ingredients_of d' id)
             = kept_names (form req)).
Proof.
  intros Hd. split; [|split].
  - destruct (new_recipe_cases now req d)
      as [[e He]|[[_ He]|[_ [r [ings [_ [Hi [_ He]]]]]]]];
      rewrite He; simpl; try assumption.
    apply (names_trimmed_add r ings (form req)); [assumption|].
    now apply form_ingredients_names.
  - intros resp d' Hm H.
    destruct (new_recipe_cases now req d)
      as [[e He]|[[Hg _]|[_ [r [ings [_ [Hi [_ He]]]]]]]];
      try congruence.
    rewrite He in H. injection H as _ <-. simpl.
    rewrite map_app, new_rows_names. f_equal.
    now apply form_ingredients_names.
  - intros id. split.
    + destruct (edit_recipe_cases id now req d)
        as [[e He]|[[recipe [_ [_ He]]]
                   |[_ [recipe [r [ings [_ [_ [Hi [_ He]]]]]]]]]];
        rewrite He; simpl; try assumption.
      apply (names_trimmed_update r ings (form req)); [assumption|].
      now apply form_ingredients_names.
    + intros resp d' Hm H.
      destruct (edit_recipe_cases id now req d)
        as [[e He]|[[recipe [Hg _]]
                   |[_ [recipe [r [ings [_ [_ [Hi [Hid He]]]]]]]]]];
        try congruence.
      rewrite He in H. injection H as _ <-.
      rewrite <- Hid, ingredients_of_update, new_rows_names.
      now apply form_ingredients_names.
Qed.

Lemma ingredient_names_trimmed_witness :
  names_trimmed Sample.db_a
  /\ names_trimmed Sample.db_ab
  /\ map Ingredient.name (ingredients Sample.db_a) = ["Sugar"; "Salt"].
Proof.
  assert (H0 : names_trimmed (@empty_db QNum.num))
    by (intros i Hi; destruct Hi).
  pose proof (proj1 (ingredient_names_trimmed empty_db 10
                       (Sample.post Sample.form_a) H0)) as Ha.
  split; [exact Ha|].
  split; [|reflexivity].
  exact (proj1 (ingredient_names_trimmed Sample.db_a 20
                  (Sample.post Sample.form_b) Ha)).
Defined.

Section OrphanFacts.
Context {N : PyNum}.

Lemma no_orphans_add (r : Recipe.t) (ings : list new_ingredient) (d : DB) :
  no_orphans d -> no_orphans (session_add r ings d).
Proof.
  intros Hd i Hi. simpl in *. apply in_app_or in Hi.
  destruct Hi as [Hi|Hi].
  - destruct (Hd i Hi) as [r0 [Hr0 Hid]].
    exists r0. split; [apply in_or_app; now left|assumption].
  - exists r. split; [apply in_or_app; right; now left|].
    symmetry. eapply new_rows_recipe. exact Hi.
Qed.

Lemma no_orphans_update (recipe r : Recipe.t) (ings : list new_ingredient)
    (d : DB) :
  In recipe (recipes d) -> Recipe.id r = Recipe.id recipe ->
  no_orphans d -> no_orphans (session_update r ings d).
Proof.
  intros Hin Hid Hd i Hi. simpl in *.
  assert (Hkeep : forall r0, In r0 (recipes d) ->
            exists r1,
              In r1 (map (fun r0 => if Recipe.id r0 =? Recipe.id r
                                    then r else r0) (recipes d))
              /\ Recipe.id r1 = Recipe.id r0).
  { intros r0 Hr0.
    exists (if Recipe.id r0 =? Recipe.id r then r else r0).
    split; [now apply (in_map (fun r0 => if Recipe.id r0 =? Recipe.id r
                                         then r else r0))|].
    destruct (Recipe.id r0 =? Recipe.id r) eqn:E; [lia|reflexivity]. }
  apply in_app_or in Hi. destruct Hi as [Hi|Hi].
  - apply filter_In in Hi. destruct Hi as [Hi _].
    destruct (Hd i Hi) as [r0 [Hr0 Hid0]].
    destruct (Hkeep r0 Hr0) as [r1 [Hr1 Hid1]].
    exists r1. split; [assumption|congruence].
  - destruct (Hkeep recipe Hin) as [r1 [Hr1 Hid1]].
    exists r1. split; [assumption|].
    apply new_rows_recipe in Hi. congruence.
Qed.

Lemma no_orphans_delete (r : Recipe.t) (d : DB) :
  no_orphans d -> no_orphans (session_delete r d).
Proof.
  intros Hd i Hi. simpl in *. apply filter_In in Hi.
  destruct Hi as [Hi Hne]. destruct (Hd i Hi) as [r0 [Hr0 Hid]].
  exists r0. split; [|assumption].
  apply filter_In. split; [assumption|]. now rewrite Hid.
Qed.

Lemma step_no_orphans (d d' : DB) :
  step d d' -> no_orphans d -> no_orphans d'.
Proof.
  intros Hs Hd. destruct Hs as [now req d|id now req d|id d].
  - destruct (new_recipe_cases now req d)
      as [[e He]|[[_ He]|[_ [r [ings [_ [_ [_ He]]]]]]]];
      rewrite He; simpl; try assumption.
    now apply no_orphans_add.
  - destruct (edit_recipe_cases id now req d)
      as [[e He]|[[recipe [_ [_ He]]]
                 |[_ [recipe [r [ings [Hq [_ [_ [Hid He]]]]]]]]]];
      rewrite He; simpl; try assumption.
    apply query_get_some in Hq. destruct Hq as [Hin Hid'].
    apply (no_orphans_update recipe); auto. congruence.
  - destruct (delete_recipe_cases id d) as [[_ He]|[recipe [_ He]]];
      rewrite He; simpl; try assumption.
    now apply no_orphans_delete.
Qed.

Lemma reachable_no_orphans (d : DB) : reachable d -> no_orphans d.
Proof.
  induction 1 as [|d d' _ IH Hs].
  - intros i Hi. destruct Hi.
  - now apply (step_no_orphans d d').
Qed.

Lemma query_get_deleted (r : Recipe.t) (d : DB) :
  query_get (session_delete r d) (Recipe.id r) = None.
Proof.
  unfold query_get. simpl.
  destruct (find _ _) as [r0|] eqn:Hf; [|reflexivity].
  apply find_some in Hf. destruct Hf as [Hf E].
  apply filter_In in Hf. destruct Hf as [_ Hf].
  rewrite E in Hf. discriminate.
Qed.
End OrphanFacts.

(** C10.  In every store that create, edit and delete lead to from the
    empty one, each ingredient row belongs to a recipe row.  A delete
    that succeeds removes, in the one commit, the recipe and all of its
    ingredients: afterwards the id resolves to no recipe, no ingredient
    of it can be retrieved, the ingredients of the other recipes are
    the ones they had, and each remaining ingredient still belongs to a
    recipe. *)
Theorem cascade_delete_no_orphans {N : PyNum} (d : DB) :
  reachable d ->
  no_orphans d
  /\ (forall d', step d d' -> no_orphans d')
  /\ forall id resp d',
       delete_recipe id d = inr (resp, d') ->
       query_get d' id = None
       /\ ingredients_of d' id = []
       /\ (forall i, In i (ingredients d') -> Ingredient.recipe_id i <> id)
       /\ (forall id', id' <> id -> ingredients_of d' id' = ingredients_of d id')
       /\ no_orphans d'.
Proof.
  intros Hr. pose proof (reachable_no_orphans d Hr) as Hd.
  split; [exact Hd|].
  split; [intros d' Hs; now apply (step_no_orphans d d')|].
  intros id resp d' H.
  destruct (delete_recipe_cases id d) as [[_ He]|[recipe [Hq He]]];
    [congruence|].
  rewrite He in H. injection H as _ <-.
  apply query_get_some in Hq. destruct Hq as [_ Hid]. subst id.
  split; [apply query_get_deleted|].
  split; [|split; [|split]].
  - unfold ingredients_of. simpl. apply filter_none.
    intros i Hi. apply filter_In in Hi. destruct Hi as [_ Hi].
    now apply negb_true_iff in Hi.
  - intros i Hi. simpl in Hi. apply filter_In in Hi.
    destruct Hi as [_ Hi]. apply negb_true_iff in Hi. lia.
  - intros id' Hne. unfold ingredients_of. simpl.
    induction (ingredients d) as [|i l IH]; simpl; [reflexivity|].
    destruct (Ingredient.recipe_id i =? Recipe.id recipe) eqn:E1;
      destruct (Ingredient.recipe_id i =? id') eqn:E2; simpl;
      rewrite ?E2, IH; try reflexivity.
    lia.
  - now apply no_orphans_delete.
Qed.

Lemma cascade_delete_no_orphans_witness :
  reachable Sample.db_ab
  /\ no_orphans Sample.db_ab
  /\ ingredients_of
       (after Sample.db_ab (delete_recipe 1 Sample.db_ab)) 1 = [].
Proof.
  assert (Hr : reachable Sample.db_ab).
  { apply (reach_step Sample.db_a).
    - apply (reach_step empty_db); [apply reach_empty|].
      apply (step_new 10 (Sample.post Sample.form_a) empty_db).
    - apply (step_new 20 (Sample.post Sample.form_b) Sample.db_a). }
  split; [exact Hr|].
  destruct (cascade_delete_no_orphans Sample.db_ab Hr) as [H1 [_ H2]].
  split; [exact H1|].
  destruct (delete_recipe 1 Sample.db_ab) as [e|[resp d']] eqn:Hdel.
  - discriminate Hdel.
  - exact (proj1 (proj2 (H2 1 resp d' Hdel))).
Defined.

(** ** Claims about search *)

(** C7 at the failing input.  The search text is pasted into the LIKE
    pattern as it is, so its [_] and [%] act as wildcards: searching for
    an underscore returns both recipes of the sample store, although no
    title, description or ingredient name of either contains one. *)
Theorem search_underscore_matches_all :
  map Recipe.title (fst (fst (index Sample.search_underscore Sample.db_ab)))
  = ["B"; "A"]
  /\ forallb (fun r => negb (Search.found "_" Sample.db_ab r))
       (recipes Sample.db_ab) = true.
Proof.
  split; reflexivity.
Qed.

(** ** Search text without wildcards

    Apart from [%] and [_], the query of [index] is the substring search
    it is meant to be. *)

Lemma like_percent (p s : string) :
  Sql.like (String Sql.percent p) s
  = Sql.like p s
    || match s with
       | EmptyString => false
       | String _ s' => Sql.like (String Sql.percent p) s'
       end.
Proof.
  destruct s; reflexivity.
Qed.

Lemma like_any (s : string) : Sql.like "%" s = true.
Proof.
  induction s as [|c s IH].
  - reflexivity.
  - change "%" with (String Sql.percent EmptyString) in *.
    rewrite like_percent, IH. apply orb_true_r.
Qed.

Lemma like_prefix (w s : string) :
  Search.wildcard_free w = true ->
  Sql.like (w ++ "%") s = String.prefix w s.
Proof.
  revert s. induction w as [|c w IH]; intros s Hw.
  - simpl. rewrite like_any. now destruct s.
  - simpl in Hw. apply andb_true_iff in Hw. destruct Hw as [Hc Hw].
    apply andb_true_iff in Hc. destruct Hc as [Hp Hu].
    apply negb_true_iff in Hp, Hu.
    simpl. rewrite Hp. destruct s as [|d s]; [reflexivity|].
    rewrite Hu, (IH s Hw). simpl.
    destruct (ascii_dec c d) as [->|Hne].
    + now rewrite Ascii.eqb_refl.
    + apply Ascii.eqb_neq in Hne. now rewrite Hne.
Qed.

Lemma like_substring (w s : string) :
  Search.wildcard_free w = true ->
  Sql.like ("%" ++ w ++ "%") s = Search.is_substring w s.
Proof.
  intros Hw.
  change ("%" ++ w ++ "%") with (String Sql.percent (w ++ "%")).
  induction s as [|c s IH].
  - rewrite like_percent, (like_prefix w "" Hw). reflexivity.
  - rewrite like_percent, (like_prefix w _ Hw), IH. reflexivity.
Qed.

Lemma sql_lower_app (a b : string) :
  Sql.lower (a ++ b) = Sql.lower a ++ Sql.lower b.
Proof.
  induction a as [|c a IH]; simpl; [reflexivity|now rewrite IH].
Qed.

Lemma sql_lower_char_wildcard (c : ascii) :
  Ascii.eqb (Sql.lower_char c) Sql.percent = Ascii.eqb c Sql.percent
  /\ Ascii.eqb (Sql.lower_char c) Sql.underscore
     = Ascii.eqb c Sql.underscore.
Proof.
  destruct c as [[] [] [] [] [] [] [] []]; split; reflexivity.
Qed.

Lemma wildcard_free_lower (w : string) :
  Search.wildcard_free (Sql.lower w) = Search.wildcard_free w.
Proof.
  induction w as [|c w IH]; simpl; [reflexivity|].
  destruct (sql_lower_char_wildcard c) as [-> ->]. now rewrite IH.
Qed.

Lemma ilike_substring (w s : string) :
  Search.wildcard_free w = true ->
  Sql.ilike (Some s) ("%" ++ w ++ "%") = Some (Search.ci_substring w s).
Proof.
  intros Hw. unfold Sql.ilike, Search.ci_substring.
  rewrite !sql_lower_app. change (Sql.lower "%") with "%".
  rewrite like_substring; [reflexivity|].
  now rewrite wildcard_free_lower.
Qed.

Section SearchFacts.
Context {N : PyNum}.

Lemma search_condition_row (w : string) (r : Recipe.t)
    (oi : option Ingredient.t) :
  Search.wildcard_free w = true ->
  Sql.holds (search_condition w (r, oi))
  = Search.ci_substring w (Recipe.title r)
    || match Recipe.description r with
       | Some s => Search.ci_substring w s
       | None => false
       end
    || match oi with
       | Some i => Search.ci_substring w (Ingredient.name i)
       | None => false
       end.
Proof.
  intros Hw. unfold search_condition. cbv zeta. cbn [fst snd].
  rewrite (ilike_substring w (Recipe.title r) Hw).
  destruct (Recipe.description r) as [s|], oi as [i|]; cbn [option_map];
    rewrite ?(ilike_substring w _ Hw); unfold Sql.ilike;
    repeat match goal with
           | |- context [Search.ci_substring ?a ?b] =>
               destruct (Search.ci_substring a b)
           end; reflexivity.
Qed.

Lemma outerjoin_In (d : DB) (r : Recipe.t) (oi : option Ingredient.t) :
  In (r, oi) (outerjoin d) <->
  In r (recipes d)
  /\ match oi with
     | Some i => In i (ingredients_of d (Recipe.id r))
     | None => ingredients_of d (Recipe.id r) = []
     end.
Proof.
  unfold outerjoin. rewrite in_flat_map. split.
  - intros [r0 [Hr0 Hrow]].
    destruct (ingredients_of d (Recipe.id r0)) as [|i0 l] eqn:Hl.
    + destruct Hrow as [[= <- <-]|[]]. auto.
    + change (In (r, oi) (map (fun i => (r0, Some i)) (i0 :: l))) in Hrow.
      apply in_map_iff in Hrow. destruct Hrow as [i [[= <- <-] Hi]].
      rewrite Hl. auto.
  - intros [Hr Hrow]. exists r. split; [assumption|].
    destruct oi as [i|].
    + destruct (ingredients_of d (Recipe.id r)) as [|i0 l]; [destruct Hrow|].
      apply (in_map (fun i => (r, Some i))). exact Hrow.
    + rewrite Hrow. now left.
Qed.

Lemma search_rows_In (w : string) (d : DB) (r : Recipe.t) :
  Search.wildcard_free w = true ->
  In r (map fst
          (filter (fun row => Sql.holds (search_condition w row))
             (outerjoin d)))
  <-> In r (recipes d) /\ Search.found w d r = true.
Proof.
  intros Hw. rewrite in_map_iff. unfold Search.found. split.
  - intros [[r0 oi] [Heq Hrow]]. simpl in Heq. subst r0.
    apply filter_In in Hrow. destruct Hrow as [Hin Hc].
    apply outerjoin_In in Hin. destruct Hin as [Hr Hoi].
    split; [assumption|].
    rewrite (search_condition_row w r oi Hw) in Hc.
    apply orb_true_iff in Hc. destruct Hc as [Hc|Hc].
    + rewrite Hc. reflexivity.
    + destruct oi as [i|]; [|discriminate].
      apply orb_true_iff. right. apply existsb_exists. eauto.
  - intros [Hr Hf]. apply orb_true_iff in Hf. destruct Hf as [Hf|Hf].
    + destruct (ingredients_of d (Recipe.id r)) as [|i l] eqn:Hl.
      * exists (r, None). split; [reflexivity|]. apply filter_In. split.
        -- apply outerjoin_In. auto.
        -- rewrite (search_condition_row w r None Hw), Hf. reflexivity.
      * exists (r, Some i). split; [reflexivity|]. apply filter_In. split.
        -- apply outerjoin_In. split; [assumption|]. rewrite Hl. now left.
        -- rewrite (search_condition_row w r (Some i) Hw), Hf. reflexivity.
    + apply existsb_exists in Hf. destruct Hf as [i [Hi Hc]].
      exists (r, Some i). split; [reflexivity|]. apply filter_In. split.
      * apply outerjoin_In. auto.
      * rewrite (search_condition_row w r (Some i) Hw), Hc.
        apply orb_true_r.
Qed.

Lemma distinct_from_In (seen : list Z) (l : list Recipe.t) (r : Recipe.t) :
  In r (distinct_from seen l) -> In r l /\ ~ In (Recipe.id r) seen.
Proof.
  revert seen. induction l as [|r0 l IH]; simpl; intros seen H.
  - contradiction.
  - destruct (existsb (Z.eqb (Recipe.id r0)) seen) eqn:E.
    + destruct (IH seen H). auto.
    + destruct H as [<-|H].
      * split; [now left|]. intros Hin.
        assert (existsb (Z.eqb (Recipe.id r0)) seen = true); [|congruence].
        apply existsb_exists. exists (Recipe.id r0).
        split; [assumption|apply Z.eqb_refl].
      * destruct (IH _ H) as [H1 H2]. split; [now right|].
        intros Hin. apply H2. now right.
Qed.

Lemma distinct_from_NoDup (seen : list Z) (l : list Recipe.t) :
  NoDup (map Recipe.id (distinct_from seen l)).
Proof.
  revert seen. induction l as [|r0 l IH]; simpl; intros seen.
  - constructor.
  - destruct (existsb (Z.eqb (Recipe.id r0)) seen); [apply IH|].
    simpl. constructor; [|apply IH].
    intros Hin. apply in_map_iff in Hin. destruct Hin as [r [Hid Hr]].
    apply distinct_from_In in Hr. destruct Hr as [_ Hr].
    apply Hr. left. congruence.
Qed.

Lemma distinct_from_keeps (seen : list Z) (l : list Recipe.t)
    (r : Recipe.t) :
  (forall a b, In a l -> In b l -> Recipe.id a = Recipe.id b -> a = b) ->
  In r l -> ~ In (Recipe.id r) seen -> In r (distinct_from seen l).
Proof.
  revert seen. induction l as [|r0 l IH]; simpl; intros seen Hpk Hr Hs.
  - contradiction.
  - destruct (existsb (Z.eqb (Recipe.id r0)) seen) eqn:E.
    + destruct Hr as [->|Hr].
      * apply existsb_exists in E. destruct E as [x [Hx E]].
        apply Z.eqb_eq in E. congruence.
      * apply IH; auto.
    + destruct Hr as [->|Hr]; [now left|].
      destruct (Z.eq_dec (Recipe.id r0) (Recipe.id r)) as [E'|E'].
      * left. apply Hpk; auto.
      * right. apply IH; auto. intros [H|H]; auto.
Qed.

(** X2.  With a search text free of wildcards, and recipe ids that are
    a primary key, [index] returns exactly the recipes in which the text
    occurs, letter case apart, in the title, the description or an
    ingredient name, narrowed to the category when one is given; each
    once; most recently updated first. *)
Lemma index_search_wildcard_free (req : request) (d : DB) :
  let search := Py.strip (MultiDict.get_default "search" "" (args req)) in
  let category := MultiDict.get_default "category" "" (args req) in
  NoDup (map Recipe.id (recipes d)) ->
  Py.truthy search = true ->
  Search.wildcard_free search = true ->
  (forall r,
     In r (fst (fst (index req d))) <->
     In r (recipes d) /\ Search.found search d r = true
     /\ (category = "" \/ Recipe.category r = Some category))
  /\ NoDup (map Recipe.id (fst (fst (index req d))))
  /\ StronglySorted
       (fun a b => Recipe.updated_at b <= Recipe.updated_at a)
       (fst (fst (index req d))).
Proof.
  intros search category Hpk Ht Hw.
  set (rows := map fst
                 (filter (fun row => Sql.holds (search_condition search row))
                    (outerjoin d))).
  assert (Hrows : forall r, In r rows <->
            In r (recipes d) /\ Search.found search d r = true)
    by (intros r; now apply search_rows_In).
  assert (Hkey : forall a b, In a rows -> In b rows ->
            Recipe.id a = Recipe.id b -> a = b).
  { intros a b Ha Hb Hid. apply Hrows in Ha, Hb.
    destruct Ha as [Ha _], Hb as [Hb _].
    clear - Hpk Ha Hb Hid.
    induction (recipes d) as [|r0 l IH]; [destruct Ha|].
    simpl in Hpk. apply NoDup_cons_iff in Hpk. destruct Hpk as [Hn Hpk].
    destruct Ha as [->|Ha], Hb as [->|Hb]; auto.
    - exfalso. apply Hn. rewrite Hid. now apply in_map.
    - exfalso. apply Hn. rewrite <- Hid. now apply in_map. }
  assert (Hd : forall r, In r (distinct rows) <-> In r rows).
  { intros r. split.
    - intros H. now apply distinct_from_In in H.
    - intros H. apply distinct_from_keeps; auto. }
  unfold index. fold search. fold category. rewrite Ht. fold rows.
  simpl fst.
  split; [|split].
  - intros r. rewrite sorted_In.
    destruct (Py.truthy category) eqn:Hc.
    + rewrite filter_In, Hd, Hrows.
      assert (Hcat : Sql.holds (Sql.eq3 (Recipe.category r) category) = true
                     <-> Recipe.category r = Some category).
      { destruct (Recipe.category r) as [c|]; simpl.
        - destruct (String.eqb_spec c category); split; congruence.
        - split; discriminate. }
      rewrite Hcat. apply truthy_nonempty in Hc. tauto.
    + rewrite Hd, Hrows.
      assert (category = "") by (destruct category; [reflexivity|discriminate]).
      tauto.
  - eapply Permutation_NoDup.
    + apply Permutation_map. symmetry. apply sorted_perm.
    + destruct (Py.truthy category).
      * assert (Hf : forall (p : Recipe.t -> bool) l,
                  NoDup (map Recipe.id l) ->
                  NoDup (map Recipe.id (filter p l))).
        { intros p l. induction l as [|x l IH]; simpl; intros Hn; [constructor|].
          apply NoDup_cons_iff in Hn. destruct Hn as [Hx Hn].
          destruct (p x); simpl; auto.
          constructor; auto. intros Hin. apply Hx.
          apply in_map_iff in Hin. destruct Hin as [y [Hy Hin]].
          apply filter_In in Hin. rewrite <- Hy. apply in_map. tauto. }
        apply Hf. apply distinct_from_NoDup.
      * apply distinct_from_NoDup.
  - assert (Hs : forall l,
              StronglySorted (fun a b => updated_desc a b = true)
                (Py.sorted updated_desc l)).
    { intros l. apply sorted_sorted; unfold updated_desc; intros; lia. }
    eapply StronglySorted_ind with
      (P := StronglySorted
              (fun a b => Recipe.updated_at b <= Recipe.updated_at a));
      [constructor| |apply Hs].
    intros a l _ IH Hall. constructor; [exact IH|].
    eapply Forall_impl; [|exact Hall].
    intros b Hb. unfold updated_desc in Hb. lia.
Qed.
End SearchFacts.

(** ** Recipe ids are a primary key *)

Section KeyFacts.
Context {N : PyNum}.

Lemma next_id_above (ids : list Z) (x : Z) : In x ids -> x < next_id ids.
Proof.
  unfold next_id. induction ids as [|y ids IH]; cbn [fold_right In];
    intros H.
  - contradiction.
  - destruct H as [->|H]; [lia|]. specialize (IH H). lia.
Qed.

Lemma ids_update (r : Recipe.t) (l : list Recipe.t) :
  map Recipe.id
    (map (fun r0 => if Recipe.id r0 =? Recipe.id r then r else r0) l)
  = map Recipe.id l.
Proof.
  induction l as [|r0 l IH]; simpl; [reflexivity|].
  rewrite IH. f_equal.
  destruct (Recipe.id r0 =? Recipe.id r) eqn:E; [lia|reflexivity].
Qed.

Lemma ids_filter (p : Recipe.t -> bool) (l : list Recipe.t) :
  NoDup (map Recipe.id l) -> NoDup (map Recipe.id (filter p l)).
Proof.
  induction l as [|x l IH]; simpl; intros Hn; [constructor|].
  apply NoDup_cons_iff in Hn. destruct Hn as [Hx Hn].
  destruct (p x); simpl; auto.
  constructor; auto. intros Hin. apply Hx.
  apply in_map_iff in Hin. destruct Hin as [y [Hy Hin]].
  apply filter_In in Hin. rewrite <- Hy. apply in_map. tauto.
Qed.

Lemma step_primary_key (d d' : DB) :
  step d d' -> NoDup (map Recipe.id (recipes d)) ->
  NoDup (map Recipe.id (recipes d')).
Proof.
  intros Hs Hd. destruct Hs as [now req d|id now req d|id d].
  - destruct (new_recipe_cases now req d)
      as [[e He]|[[_ He]|[_ [r [ings [_ [_ [Hid He]]]]]]]];
      rewrite He; simpl; try assumption.
    rewrite map_app. simpl. apply NoDup_app; auto.
    + repeat constructor. intros [].
    + intros x Hx [<-|[]]. rewrite Hid in Hx.
      apply next_id_above in Hx. lia.
  - destruct (edit_recipe_cases id now req d)
      as [[e He]|[[recipe [_ [_ He]]]
                 |[_ [recipe [r [ings [_ [_ [_ [_ He]]]]]]]]]];
      rewrite He; simpl; try assumption.
    now rewrite ids_update.
  - destruct (delete_recipe_cases id d) as [[_ He]|[recipe [_ He]]];
      rewrite He; simpl; try assumption.
    now apply ids_filter.
Qed.

Lemma reachable_primary_key (d : DB) :
  reachable d -> NoDup (map Recipe.id (recipes d)).
Proof.
  induction 1 as [|d d' _ IH Hs].
  - constructor.
  - now apply (step_primary_key d d').
Qed.
End KeyFacts.

(** * Further properties of the handlers *)

(** ** [index] *)

Lemma updated_desc_sorted {N : PyNum} (l : list Recipe.t) :
  StronglySorted (fun a b => Recipe.updated_at b <= Recipe.updated_at a)
    (Py.sorted updated_desc l).
Proof.
  assert (Hs : StronglySorted (fun a b => updated_desc a b = true)
                 (Py.sorted updated_desc l))
    by (apply sorted_sorted; unfold updated_desc; intros; lia).
  induction Hs as [|a l' _ IH Hall]; constructor; [exact IH|].
  eapply Forall_impl; [|exact Hall].
  intros b Hb. unfold updated_desc in Hb. lia.
Qed.

Lemma sample_primary_key : NoDup (map Recipe.id (recipes Sample.db_ab)).
Proof.
  repeat constructor; simpl; intuition discriminate.
Qed.

Lemma index_search_wildcard_free_witness :
  NoDup (map Recipe.id (recipes Sample.db_ab))
  /\ Py.truthy (Py.strip (MultiDict.get_default "search" ""
                            (args Cases.search_flour))) = true
  /\ Search.wildcard_free
       (Py.strip (MultiDict.get_default "search" ""
                    (args Cases.search_flour))) = true
  /\ NoDup (map Recipe.id
              (fst (fst (index Cases.search_flour Sample.db_ab)))).
Proof.
  split; [exact sample_primary_key|]. split; [reflexivity|].
  split; [reflexivity|].
  exact (proj1 (proj2 (index_search_wildcard_free Cases.search_flour
                         Sample.db_ab sample_primary_key eq_refl eq_refl))).
Defined.

(** X1.  When the search text is missing or blank, [index] lists the
    whole recipe table, or its recipes of the given category when one is
    given, most recently updated first. *)
Theorem index_without_search {N : PyNum} (req : request) (d : DB) :
  Py.truthy (Py.strip (MultiDict.get_default "search" "" (args req)))
  = false ->
  let category := MultiDict.get_default "category" "" (args req) in
  Permutation (fst (fst (index req d)))
    (if Py.truthy category
     then filter (fun r => match Recipe.category r with
                           | Some c => String.eqb c category
                           | None => false
                           end) (recipes d)
     else recipes d)
  /\ StronglySorted
       (fun a b => Recipe.updated_at b <= Recipe.updated_at a)
       (fst (fst (index req d))).
Proof.
  intros Hs category. unfold index. rewrite Hs. fold category.
  cbn [fst]. split; [|apply updated_desc_sorted].
  rewrite sorted_perm.
  destruct (Py.truthy category); [|reflexivity].
  assert (E : forall l : list Recipe.t,
            filter (fun r => Sql.holds (Sql.eq3 (Recipe.category r) category)) l
            = filter (fun r => match Recipe.category r with
                               | Some c => String.eqb c category
                               | None => false
                               end) l).
  { intros l. apply filter_ext. intros r.
    destruct (Recipe.category r) as [c|]; simpl; [|reflexivity].
    now destruct (String.eqb c category). }
  now rewrite E.
Qed.

Lemma index_without_search_witness :
  Py.truthy (Py.strip (MultiDict.get_default "search" ""
                         (args Cases.blank_search))) = false
  /\ Permutation (fst (fst (index Cases.blank_search Sample.db_ab)))
       (recipes Sample.db_ab).
Proof.
  split; [reflexivity|].
  exact (proj1 (index_without_search Cases.blank_search Sample.db_ab
                  eq_refl)).
Defined.

Lemma like_literal_prefix (w s : string) :
  String.prefix w s = true -> Sql.like (w ++ "%") s = true.
Proof.
  revert s. induction w as [|c w IH]; intros s Hp.
  - apply like_any.
  - destruct s as [|d s]; [discriminate|].
    simpl in Hp. destruct (ascii_dec c d) as [<-|]; [|discriminate].
    specialize (IH s Hp).
    change (String c w ++ "%") with (String c (w ++ "%")).
    destruct (Ascii.eqb c Sql.percent) eqn:E.
    + apply Ascii.eqb_eq in E. subst c.
      rewrite like_percent. apply orb_true_iff. right.
      rewrite like_percent, IH. reflexivity.
    + simpl. rewrite E, Ascii.eqb_refl, IH, orb_true_r. reflexivity.
Qed.

Lemma like_literal (w s : string) :
  Search.is_substring w s = true -> Sql.like ("%" ++ w ++ "%") s = true.
Proof.
  change ("%" ++ w ++ "%") with (String Sql.percent (w ++ "%")).
  induction s as [|c s IH]; intros H; rewrite like_percent.
  - cbn [Search.is_substring] in H. rewrite orb_false_r in H.
    now rewrite (like_literal_prefix w "" H).
  - cbn [Search.is_substring] in H.
    apply orb_true_iff in H. destruct H as [H|H].
    + now rewrite (like_literal_prefix w _ H).
    + rewrite (IH H). apply orb_true_r.
Qed.

Lemma ilike_literal (w s : string) :
  Search.ci_substring w s = true ->
  Sql.ilike (Some s) ("%" ++ w ++ "%") = Some true.
Proof.
  intros H. unfold Sql.ilike. rewrite !sql_lower_app.
  change (Sql.lower "%") with "%". now rewrite like_literal.
Qed.

Lemma or3_true_l (b : option bool) : Sql.or3 (Some true) b = Some true.
Proof. reflexivity. Qed.

Lemma or3_true_r (a : option bool) : Sql.or3 a (Some true) = Some true.
Proof. now destruct a as [[]|]. Qed.

(** X3.  Whatever the search text, wildcards or not, [index] does not
    miss a recipe in which the trimmed text occurs, letter case apart,
    in the title, the description or an ingredient name, and which is of
    the given category when one is given (recipe ids being a primary
    key). *)
Theorem index_search_complete {N : PyNum} (req : request) (d : DB)
    (r : Recipe.t) :
  let search := Py.strip (MultiDict.get_default "search" "" (args req)) in
  let category := MultiDict.get_default "category" "" (args req) in
  NoDup (map Recipe.id (recipes d)) ->
  Py.truthy search = true ->
  In r (recipes d) ->
  Search.found search d r = true ->
  category = "" \/ Recipe.category r = Some category ->
  In r (fst (fst (index req d))).
Proof.
  intros search category Hpk Ht Hr Hf Hc.
  set (rows := map fst
                 (filter (fun row => Sql.holds (search_condition search row))
                    (outerjoin d))).
  assert (Hin : forall x, In x rows -> In x (recipes d)).
  { intros x Hx. apply in_map_iff in Hx. destruct Hx as [[x0 oi] [<- Hx]].
    apply filter_In in Hx. destruct Hx as [Hx _].
    now apply outerjoin_In in Hx. }
  assert (Hrow : In r rows).
  { unfold Search.found in Hf.
    assert (Hrows : forall oi,
              In (r, oi) (outerjoin d) ->
              Sql.holds (search_condition search (r, oi)) = true ->
              In r rows).
    { intros oi H1 H2. apply in_map_iff. exists (r, oi).
      split; [reflexivity|]. apply filter_In. auto. }
    assert (Hany : exists oi, In (r, oi) (outerjoin d)).
    { destruct (ingredients_of d (Recipe.id r)) as [|i l] eqn:Hl.
      - exists None. apply outerjoin_In. auto.
      - exists (Some i). apply outerjoin_In. split; [assumption|].
        rewrite Hl. now left. }
    apply orb_true_iff in Hf. destruct Hf as [Hf|Hf].
    - destruct Hany as [oi Hoi]. apply (Hrows oi Hoi).
      unfold search_condition. cbv zeta. cbn [fst snd].
      apply orb_true_iff in Hf. destruct Hf as [Hf|Hf].
      + rewrite (ilike_literal _ _ Hf). reflexivity.
      + destruct (Recipe.description r) as [s|]; [|discriminate].
        rewrite (ilike_literal _ s Hf), or3_true_r. reflexivity.
    - apply existsb_exists in Hf. destruct Hf as [i [Hi Hf]].
      apply (Hrows (Some i)); [apply outerjoin_In; auto|].
      unfold search_condition. cbv zeta. cbn [fst snd option_map].
      rewrite (ilike_literal _ _ Hf), or3_true_r. reflexivity. }
  assert (Hd : In r (distinct rows)).
  { apply distinct_from_keeps; auto.
    intros a b Ha Hb Hid. apply Hin in Ha, Hb.
    clear - Hpk Ha Hb Hid.
    induction (recipes d) as [|r0 l IH]; [destruct Ha|].
    simpl in Hpk. apply NoDup_cons_iff in Hpk. destruct Hpk as [Hn Hpk].
    destruct Ha as [->|Ha], Hb as [->|Hb]; auto.
    - exfalso. apply Hn. rewrite Hid. now apply in_map.
    - exfalso. apply Hn. rewrite <- Hid. now apply in_map. }
  unfold index. fold search. fold category. rewrite Ht. fold rows.
  cbn [fst]. apply sorted_In.
  destruct (Py.truthy category) eqn:Hcat; [|assumption].
  apply filter_In. split; [assumption|].
  destruct Hc as [Hc|Hc].
  - rewrite Hc in Hcat. discriminate.
  - rewrite Hc. simpl. now rewrite String.eqb_refl.
Qed.

Lemma index_search_complete_witness :
  NoDup (map Recipe.id (recipes Sample.db_ab))
  /\ In Cases.recipe_b (recipes Sample.db_ab)
  /\ Search.found "FLOUR" Sample.db_ab Cases.recipe_b = true
  /\ In Cases.recipe_b (fst (fst (index Cases.search_flour Sample.db_ab))).
Proof.
  split; [exact sample_primary_key|].
  assert (Hin : In Cases.recipe_b (recipes Sample.db_ab))
    by (right; left; reflexivity).
  assert (Hf : Search.found "FLOUR" Sample.db_ab Cases.recipe_b = true)
    by (vm_compute; reflexivity).
  split; [exact Hin|]. split; [exact Hf|].
  apply (index_search_complete Cases.search_flour Sample.db_ab
           Cases.recipe_b sample_primary_key eq_refl Hin Hf).
  now left.
Defined.

(** ** [view_recipe] *)



(** ** The ingredient rows of a form *)

Section FormFacts.
Context {N : PyNum}.

Lemma ingredient_loop_outcome (rows : list (string * (string * string))) :
  if forallb (fun row => negb (row_kept row) || amount_converts row) rows
  then ingredient_loop rows = inr (map row_stored (filter row_kept rows))
  else ingredient_loop rows = inl ValueError.
Proof.
  induction rows as [|[name [amount unit]] rows IH].
  - reflexivity.
  - simpl. unfold row_kept, amount_converts, row_stored in *. simpl.
    destruct (Py.truthy (Py.strip name)) eqn:Hk; simpl; [|exact IH].
    destruct (Py.truthy amount) eqn:Ha; simpl.
    + destruct (float_of_str amount) as [x|] eqn:Hx; simpl; [|reflexivity].
      destruct (forallb _ rows); rewrite IH; reflexivity.
    + destruct (forallb _ rows); rewrite IH; reflexivity.
Qed.




End FormFacts.

(** X7.  The rows of a form are the name, amount and unit fields taken
    together by position, as many as the shortest of the three lists.
    The rows with a blank name are left out; if each of the others has
    an amount that is empty or converts to a float, they are kept in
    order, each with its trimmed name, its amount (none when the field
    is empty) and its unit as given; otherwise the value error is
    raised.  A blank row does not raise, whatever its amount. *)
Theorem form_ingredients_outcome {N : PyNum} (md : multidict) :
  List.length (form_rows md)
  = Nat.min (List.length (MultiDict.getlist "ingredient_name[]" md))
      (Nat.min (List.length (MultiDict.getlist "ingredient_amount[]" md))
         (List.length (MultiDict.getlist "ingredient_unit[]" md)))
  /\ if forallb (fun row => negb (row_kept row) || amount_converts row)
          (form_rows md)
     then form_ingredients md
          = inr (map row_stored (filter row_kept (form_rows md)))
     else form_ingredients md = inl ValueError.
Proof.
  split.
  - unfold form_rows. now rewrite !length_combine.
  - apply ingredient_loop_outcome.
Qed.

(** ** [new_recipe] *)

Section CreateFacts.
Context {N : PyNum}.

Lemma new_recipe_post_inv (now : Z) (req : request) (d : DB)
    (resp : response) (d' : DB) :
  method req = POST ->
  new_recipe now req d = inr (resp, d') ->
  exists title servings prep cook ings r,
    MultiDict.get "title" (form req) = Some title
    /\ int_field "servings" 4 (form req) = inr servings
    /\ opt_int_field "prep_time" (form req) = inr prep
    /\ opt_int_field "cook_time" (form req) = inr cook
    /\ form_ingredients (form req) = inr ings
    /\ r = {| Recipe.id := next_id (map Recipe.id (recipes d));
              Recipe.title := title;
              Recipe.description :=
                Some (MultiDict.get_default "description" "" (form req));
              Recipe.category :=
                Some (MultiDict.get_default "category" "Dinner" (form req));
              Recipe.servings := Some servings;
              Recipe.prep_time := prep;
              Recipe.cook_time := cook;
              Recipe.instructions :=
                Some (MultiDict.get_default "instructions" "" (form req));
              Recipe.calories := None;
              Recipe.protein := None;
              Recipe.carbs := None;
              Recipe.fat := None;
              Recipe.created_at := now;
              Recipe.updated_at := now |}
    /\ resp = RedirectView (Recipe.id r)
    /\ d' = session_add r ings d.
Proof.
  intros Hm. unfold new_recipe. rewrite Hm. unfold MultiDict.getitem.
  destruct (MultiDict.get "title" (form req)) as [title|]; simpl;
    [|discriminate].
  destruct (int_field _ _ _) as [e|servings]; simpl; [discriminate|].
  destruct (opt_int_field "prep_time" _) as [e|prep]; simpl; [discriminate|].
  destruct (opt_int_field "cook_time" _) as [e|cook]; simpl; [discriminate|].
  destruct (form_ingredients _) as [e|ings]; simpl; [discriminate|].
  intros [= <- <-].
  exists title, servings, prep, cook, ings. eexists.
  repeat (split; [reflexivity|]). split; reflexivity.
Qed.

Lemma next_id_fresh (ids : list Z) : ~ In (next_id ids) ids.
Proof.
  intros H. apply next_id_above in H. lia.
Qed.

Lemma query_get_app_new (d : DB) (r : Recipe.t) (ings : list new_ingredient)
    (id : Z) :
  ~ In (Recipe.id r) (map Recipe.id (recipes d)) ->
  query_get (session_add r ings d) id
  = if Recipe.id r =? id then Some r else query_get d id.
Proof.
  intros Hf. unfold query_get. simpl.
  induction (recipes d) as [|r0 l IH]; simpl.
  - reflexivity.
  - simpl in Hf. destruct (Recipe.id r0 =? id) eqn:E.
    + destruct (Recipe.id r =? id) eqn:E'; [|reflexivity].
      exfalso. apply Hf. left. lia.
    + apply IH. tauto.
Qed.



End CreateFacts.


Lemma sample_reachable : reachable Sample.db_ab.
Proof.
  apply (reach_step Sample.db_a).
  - apply (reach_step empty_db); [apply reach_empty|].
    apply (step_new 10 (Sample.post Sample.form_a) empty_db).
  - apply (step_new 20 (Sample.post Sample.form_b) Sample.db_a).
Qed.

Lemma sample_no_orphans : no_orphans Sample.db_ab.
Proof.
  apply reachable_no_orphans, sample_reachable.
Qed.




(** ** [edit_recipe] and [delete_recipe] *)

Section EditFacts.
Context {N : PyNum}.

Lemma edit_recipe_post_inv (id now : Z) (req : request) (d : DB)
    (resp : response) (d' : DB) :
  method req = POST ->
  edit_recipe id now req d = inr (resp, d') ->
  exists old ings r,
    query_get d id = Some old
    /\ form_ingredients (form req) = inr ings
    /\ MultiDict.get "title" (form req) = Some (Recipe.title r)
    /\ Recipe.id r = id
    /\ Recipe.description r <> None /\ Recipe.category r <> None
    /\ Recipe.servings r <> None /\ Recipe.instructions r <> None
    /\ Recipe.calories r = Recipe.calories old
    /\ Recipe.protein r = Recipe.protein old
    /\ Recipe.carbs r = Recipe.carbs old
    /\ Recipe.fat r = Recipe.fat old
    /\ Recipe.created_at r = Recipe.created_at old
    /\ resp = RedirectView id
    /\ d' = session_update r ings d.
Proof.
  intros Hm. unfold edit_recipe, get_or_404.
  destruct (query_get d id) as [old|] eqn:Hq; simpl; [|discriminate].
  destruct (query_get_some d id old Hq) as [_ Hid].
  rewrite Hm. unfold MultiDict.getitem.
  destruct (MultiDict.get "title" (form req)) as [title|]; simpl;
    [|discriminate].
  destruct (int_field _ _ _) as [e|servings]; simpl; [discriminate|].
  destruct (opt_int_field "prep_time" _) as [e|prep]; simpl; [discriminate|].
  destruct (opt_int_field "cook_time" _) as [e|cook]; simpl; [discriminate|].
  destruct (form_ingredients _) as [e|ings]; simpl; [discriminate|].
  intros [= <- <-]. exists old, ings.
  destruct (columns_changed _ _);
    match goal with
    | |- context [session_update ?r _ _] => exists r
    end; simpl; rewrite ?Hid;
    repeat (split; [first [reflexivity | discriminate]|]); reflexivity.
Qed.






End EditFacts.




(** X10.  In a store without orphan ingredients, deleting the recipe
    that a create has just made gives back the store as it was before
    the create. *)
Theorem create_delete_round_trip {N : PyNum} (now id : Z) (req : request)
    (d d' : DB) :
  no_orphans d ->
  new_recipe now req d = inr (RedirectView id, d') ->
  delete_recipe id d' = inr (RedirectIndex, d).
Proof.
  intros Hd H.
  destruct (new_recipe_cases now req d)
    as [[e He]|[[_ He]|[_ [r [ings [_ [_ [Hid He]]]]]]]];
    rewrite He in H; try discriminate.
  injection H as <- <-.
  assert (Hfresh : ~ In (Recipe.id r) (map Recipe.id (recipes d)))
    by (rewrite Hid; apply next_id_fresh).
  unfold delete_recipe, get_or_404.
  rewrite query_get_app_new, Z.eqb_refl by assumption. simpl.
  unfold ret. do 2 f_equal.
  unfold session_delete, session_add. simpl.
  destruct d as [rs irows]. simpl in *. f_equal.
  - rewrite filter_app. simpl. rewrite Z.eqb_refl. simpl.
    rewrite app_nil_r. apply filter_all.
    intros r0 Hr0. apply negb_true_iff.
    destruct (Recipe.id r0 =? Recipe.id r) eqn:E; [|reflexivity].
    exfalso. apply Hfresh. apply in_map_iff. exists r0.
    split; [lia|assumption].
  - rewrite filter_app.
    rewrite (filter_none _ (new_rows _ _ _)).
    + rewrite app_nil_r. apply filter_all.
      intros i Hi. apply negb_true_iff.
      destruct (Ingredient.recipe_id i =? Recipe.id r) eqn:E; [|reflexivity].
      exfalso. destruct (Hd i Hi) as [r0 [Hr0 Hid0]].
      apply Hfresh. apply in_map_iff. exists r0.
      split; [simpl in *; lia|assumption].
    + intros i Hi. apply new_rows_recipe in Hi.
      apply negb_false_iff. lia.
Qed.

Lemma create_delete_round_trip_witness :
  no_orphans Sample.db_ab
  /\ new_recipe 30 (Sample.post Cases.form_c) Sample.db_ab
     = inr (RedirectView 3,
            after Sample.db_ab
              (new_recipe 30 (Sample.post Cases.form_c) Sample.db_ab))
  /\ delete_recipe 3
       (after Sample.db_ab
          (new_recipe 30 (Sample.post Cases.form_c) Sample.db_ab))
     = inr (RedirectIndex, Sample.db_ab).
Proof.
  split; [exact sample_no_orphans|].
  assert (H : new_recipe 30 (Sample.post Cases.form_c) Sample.db_ab
              = inr (RedirectView 3,
                     after Sample.db_ab
                       (new_recipe 30 (Sample.post Cases.form_c)
                          Sample.db_ab)))
    by reflexivity.
  split; [exact H|].
  exact (create_delete_round_trip 30 3 (Sample.post Cases.form_c)
           Sample.db_ab _ sample_no_orphans H).
Defined.

(** ** Invariants of the reachable stores *)

Section ReachableFacts.
Context {N : PyNum}.

Lemma new_rows_unit (rid next : Z) (ings : list new_ingredient)
    (i : Ingredient.t) :
  In i (new_rows rid next ings) -> Ingredient.unit i <> None.
Proof.
  revert next. induction ings as [|[[n a] u] ings IH]; simpl; intros next.
  - contradiction.
  - intros [<-|H]; [discriminate|eauto].
Qed.

Lemma step_filled (d d' : DB) : step d d' -> filled d -> filled d'.
Proof.
  intros Hs [Hr Hi]. destruct Hs as [now req d|id now req d|id d].
  - destruct (new_recipe now req d) as [e|[resp d']] eqn:He;
      [now split|]. simpl.
    destruct (method req) eqn:Hm.
    + unfold new_recipe in He. rewrite Hm in He. injection He as _ <-.
      now split.
    + destruct (new_recipe_post_inv now req d resp d' Hm He)
        as (title & servings & prep & cook & ings & r & _ & _ & _ & _
            & _ & Hrec & _ & ->).
      split.
      * intros r0 H0. simpl in H0. apply in_app_or in H0.
        destruct H0 as [H0|[<-|[]]]; [auto|].
        rewrite Hrec. repeat split; discriminate.
      * intros i H0. simpl in H0. apply in_app_or in H0.
        destruct H0 as [H0|H0]; [auto|]. eapply new_rows_unit; eauto.
  - destruct (edit_recipe id now req d) as [e|[resp d']] eqn:He;
      [now split|]. simpl.
    destruct (method req) eqn:Hm.
    + unfold edit_recipe, get_or_404 in He.
      destruct (query_get d id); simpl in He; [|discriminate].
      rewrite Hm in He. injection He as _ <-. now split.
    + destruct (edit_recipe_post_inv id now req d resp d' Hm He)
        as (old & ings & r & Hq & _ & _ & _ & H1 & H2 & H3 & H4
            & Hc & Hp & Hcb & Hf & _ & _ & ->).
      apply query_get_some in Hq. destruct Hq as [Hold _].
      destruct (Hr old Hold) as (_ & _ & _ & _ & O1 & O2 & O3 & O4).
      split.
      * intros r0 H0. simpl in H0. apply in_map_iff in H0.
        destruct H0 as [r1 [<- H0]].
        destruct (Recipe.id r1 =? Recipe.id r); [|auto].
        repeat split; congruence.
      * intros i H0. simpl in H0. apply in_app_or in H0.
        destruct H0 as [H0|H0].
        -- apply filter_In in H0. now apply Hi.
        -- eapply new_rows_unit; eauto.
  - destruct (delete_recipe_cases id d) as [[_ He]|[recipe [_ He]]];
      rewrite He; simpl; [now split|].
    split.
    + intros r0 H0. apply filter_In in H0. now apply Hr.
    + intros i H0. apply filter_In in H0. now apply Hi.
Qed.

Lemma new_rows_ids (rid next : Z) (ings : list new_ingredient) :
  NoDup (map Ingredient.id (new_rows rid next ings))
  /\ forall i, In i (new_rows rid next ings) -> next <= Ingredient.id i.
Proof.
  revert next. induction ings as [|[[n a] u] ings IH]; simpl; intros next.
  - split; [constructor|contradiction].
  - destruct (IH (next + 1)) as [H1 H2]. split.
    + constructor; [|assumption].
      intros Hin. apply in_map_iff in Hin. destruct Hin as [i [Hid Hi]].
      apply H2 in Hi. lia.
    + intros i [<-|Hi]; [simpl; lia|]. apply H2 in Hi. lia.
Qed.

Lemma ingredient_ids_extend (rid : Z) (ings : list new_ingredient)
    (old kept : list Ingredient.t) :
  NoDup (map Ingredient.id kept) ->
  (forall i, In i kept -> In i old) ->
  NoDup (map Ingredient.id
           (kept ++ new_rows rid (next_id (map Ingredient.id old)) ings)).
Proof.
  intros Hk Hsub. rewrite map_app.
  destruct (new_rows_ids rid (next_id (map Ingredient.id old)) ings)
    as [H1 H2].
  apply NoDup_app; auto.
  intros x Hx Hy.
  apply in_map_iff in Hx. destruct Hx as [i [<- Hi]].
  apply in_map_iff in Hy. destruct Hy as [j [Hid Hj]].
  apply H2 in Hj.
  assert (Ingredient.id i < next_id (map Ingredient.id old))
    by (apply next_id_above, in_map, Hsub, Hi).
  lia.
Qed.

Lemma ingredient_ids_filter (p : Ingredient.t -> bool)
    (l : list Ingredient.t) :
  NoDup (map Ingredient.id l) -> NoDup (map Ingredient.id (filter p l)).
Proof.
  induction l as [|x l IH]; simpl; intros Hn; [constructor|].
  apply NoDup_cons_iff in Hn. destruct Hn as [Hx Hn].
  destruct (p x); simpl; auto.
  constructor; auto. intros Hin. apply Hx.
  apply in_map_iff in Hin. destruct Hin as [y [Hy Hin]].
  apply filter_In in Hin. rewrite <- Hy. apply in_map. tauto.
Qed.

Lemma step_ingredient_key (d d' : DB) :
  step d d' -> NoDup (map Ingredient.id (ingredients d)) ->
  NoDup (map Ingredient.id (ingredients d')).
Proof.
  intros Hs Hd. destruct Hs as [now req d|id now req d|id d].
  - destruct (new_recipe_cases now req d)
      as [[e He]|[[_ He]|[_ [r [ings [_ [_ [_ He]]]]]]]];
      rewrite He; simpl; try assumption.
    apply ingredient_ids_extend; auto.
  - destruct (edit_recipe_cases id now req d)
      as [[e He]|[[recipe [_ [_ He]]]
                 |[_ [recipe [r [ings [_ [_ [_ [_ He]]]]]]]]]];
      rewrite He; simpl; try assumption.
    apply ingredient_ids_extend.
    + now apply ingredient_ids_filter.
    + intros i Hi. now apply filter_In in Hi.
  - destruct (delete_recipe_cases id d) as [[_ He]|[recipe [_ He]]];
      rewrite He; simpl; try assumption.
    now apply ingredient_ids_filter.
Qed.
End ReachableFacts.

(** X11.  In every store that create, edit and delete lead to from the
    empty one, each recipe has its description, category, servings and
    instructions set and its four nutrition columns empty (no handler
    writes them), and each ingredient has a unit that is a string. *)
Theorem reachable_filled {N : PyNum} (d : DB) : reachable d -> filled d.
Proof.
  induction 1 as [|d d' _ IH Hs].
  - split; intros x [].
  - now apply (step_filled d d').
Qed.

Lemma reachable_filled_witness :
  reachable Sample.db_ab /\ filled Sample.db_ab.
Proof.
  split; [exact sample_reachable|].
  exact (reachable_filled Sample.db_ab sample_reachable).
Defined.

(** X12.  In every such store the recipe ids are pairwise distinct, and
    so are the ingredient ids: an id identifies one row. *)
Theorem reachable_ids_unique {N : PyNum} (d : DB) :
  reachable d ->
  NoDup (map Recipe.id (recipes d))
  /\ NoDup (map Ingredient.id (ingredients d)).
Proof.
  intros Hr. split; [now apply reachable_primary_key|].
  induction Hr as [|d d' _ IH Hs].
  - constructor.
  - now apply (step_ingredient_key d d').
Qed.

Lemma reachable_ids_unique_witness :
  reachable Sample.db_ab
  /\ NoDup (map Ingredient.id (ingredients Sample.db_ab)).
Proof.
  split; [exact sample_reachable|].
  exact (proj2 (reachable_ids_unique Sample.db_ab sample_reachable)).
Defined.

(** ** [shopping_list]: when it raises, and what the items account for *)

Section SelectionFacts.
Context {N : PyNum}.






(** The occurrences, taken key by key, are all the occurrences. *)
Lemma partition_by_key {A B} (key : A -> B) (eqb : B -> B -> bool)
    (l : list A) (ks : list B) :
  (forall a b, eqb a b = true <-> a = b) ->
  NoDup ks ->
  Permutation
    (flat_map (fun k => filter (fun a => eqb (key a) k) l) ks)
    (filter (fun a => existsb (eqb (key a)) ks) l).
Proof.
  intros Heq Hnd. induction Hnd as [|k ks Hnin Hnd IH]; simpl.
  - induction l as [|a l IHl]; simpl; [constructor|exact IHl].
  - rewrite IH. clear IH.
    induction l as [|a l IHl]; simpl; [constructor|].
    destruct (eqb (key a) k) eqn:E; simpl.
    + assert (Hex : existsb (eqb (key a)) ks = false).
      { destruct (existsb (eqb (key a)) ks) eqn:Hex; [|reflexivity].
        apply existsb_exists in Hex. destruct Hex as [k' [Hk' E']].
        apply Heq in E, E'. subst. contradiction. }
      rewrite Hex. now constructor.
    + destruct (existsb (eqb (key a)) ks); [|exact IHl].
      rewrite <- IHl. symmetry. apply Permutation_middle.
Qed.

Lemma merged_items_titles (occs : list occurrence) :
  Permutation (flat_map Item.recipes (merged_items occs))
    (map occ_title occs).
Proof.
  unfold merged_items. rewrite flat_map_concat_map, map_map.
  rewrite <- flat_map_concat_map.
  assert (E : flat_map
                (fun k => Item.recipes (merge_group (group k occs)))
                (dedup (map occ_key occs))
              = map occ_title
                  (flat_map (fun k => group k occs)
                     (dedup (map occ_key occs)))).
  { induction (dedup (map occ_key occs)) as [|k ks IH];
      [reflexivity|].
    cbn [flat_map]. rewrite map_app, IH. reflexivity. }
  rewrite E. apply Permutation_map.
  unfold group.
  rewrite (partition_by_key occ_key key_eqb occs _ key_eqb_eq
             (dedup_NoDup _)).
  rewrite filter_all; [reflexivity|].
  intros o Ho. apply (existsb_eqb key_eqb key_eqb_eq), dedup_In.
  now apply in_map.
Qed.

Lemma occurrences_titles (d : DB) (sels : list (Z * Z)) (t : string) :
  In t (map occ_title (occurrences d sels)) ->
  exists p r, In p sels /\ query_get d (fst p) = Some r
              /\ Recipe.title r = t.
Proof.
  intros H. apply in_map_iff in H. destruct H as [o [<- Ho]].
  unfold occurrences in Ho. apply in_flat_map in Ho.
  destruct Ho as [p [Hp Ho]]. unfold occurrences_of in Ho.
  destruct (query_get d (fst p)) as [r|] eqn:Hq; [|destruct Ho].
  apply in_map_iff in Ho. destruct Ho as [ing [<- _]].
  exists p, r. auto.
Qed.
End SelectionFacts.



(** X14.  On a POST with a well-formed selection, every ingredient
    occurrence is counted in exactly one item: the recipe titles listed
    under the items, taken together, are the titles of the occurrences,
    one for one.  So no item is without a recipe, and every title
    listed is the title of a selected recipe that resolves. *)
Theorem shopping_items_account_for_occurrences {N : PyNum} (req : request)
    (d : DB) (sels : list (Z * Z)) :
  method req = POST ->
  selections req = inr sels ->
  exists items,
    shopping_list req d
    = inr (Py.sorted title_le (recipes d), items, map fst sels)
    /\ Permutation (flat_map Item.recipes items)
         (map occ_title (occurrences d sels))
    /\ (forall it, In it items -> Item.recipes it <> [])
    /\ (forall it t, In it items -> In t (Item.recipes it) ->
          exists p r, In p sels /\ query_get d (fst p) = Some r
                      /\ Recipe.title r = t).
Proof.
  intros Hm Hsel. exists (shopping_items d sels).
  split; [now apply shopping_list_post|].
  assert (Hperm : Permutation (flat_map Item.recipes (shopping_items d sels))
                    (map occ_title (occurrences d sels))).
  { unfold shopping_items.
    rewrite (Permutation_flat_map Item.recipes
               (sorted_perm name_le (merged_items (occurrences d sels)))).
    apply merged_items_titles. }
  split; [exact Hperm|]. split.
  - intros it Hit. apply shopping_items_In in Hit.
    destruct Hit as [k [Hk ->]].
    destruct (group_cons k _ Hk) as [o [rest Hg]].
    rewrite Hg. discriminate.
  - intros it t Hit Ht. apply (occurrences_titles d sels).
    eapply Permutation_in; [exact Hperm|].
    apply in_flat_map. eauto.
Qed.

Lemma shopping_items_account_for_occurrences_witness :
  method Sample.select_a_b = POST
  /\ @selections QNum.num Sample.select_a_b = inr [(1, 4); (2, 4)]
  /\ exists items,
       shopping_list Sample.select_a_b Sample.db_ab
       = inr (Py.sorted title_le (recipes Sample.db_ab), items, [1; 2])
       /\ Permutation (flat_map Item.recipes items) ["A"; "A"; "B"; "B"].
Proof.
  split; [reflexivity|]. split; [reflexivity|].
  destruct (shopping_items_account_for_occurrences Sample.select_a_b
              Sample.db_ab [(1, 4); (2, 4)] eq_refl eq_refl)
    as [items [H [Hp _]]].
  exists items. split; [exact H|exact Hp].
Defined.

(** ** [api_recipes] *)

(** X15.  In every store that create, edit and delete lead to from the
    empty one, the JSON listing has one entry per recipe, in table
    order and with distinct ids, each carrying the recipe's own
    ingredients; taken together the entries list every stored
    ingredient exactly once. *)
Theorem api_recipes_complete {N : PyNum} (d : DB) :
  reachable d ->
  map RecipeDict.id (api_recipes d) = map Recipe.id (recipes d)
  /\ map RecipeDict.title (api_recipes d) = map Recipe.title (recipes d)
  /\ NoDup (map RecipeDict.id (api_recipes d))
  /\ (forall e, In e (api_recipes d) ->
        RecipeDict.ingredients e
        = map IngredientDict.to_dict (ingredients_of d (RecipeDict.id e)))
  /\ Permutation (flat_map RecipeDict.ingredients (api_recipes d))
       (map IngredientDict.to_dict (ingredients d)).
Proof.
  intros Hr.
  pose proof (reachable_primary_key d Hr) as Hpk.
  pose proof (reachable_no_orphans d Hr) as Hno.
  assert (Hids : map RecipeDict.id (api_recipes d)
                 = map Recipe.id (recipes d))
    by (unfold api_recipes; rewrite map_map; reflexivity).
  split; [exact Hids|].
  split; [unfold api_recipes; rewrite map_map; reflexivity|].
  split; [now rewrite Hids|].
  split.
  - intros e He. unfold api_recipes in He. apply in_map_iff in He.
    destruct He as [r [<- _]]. reflexivity.
  - unfold api_recipes. rewrite flat_map_concat_map, map_map.
    rewrite <- flat_map_concat_map.
    assert (E : forall l,
              flat_map
                (fun r => RecipeDict.ingredients (RecipeDict.to_dict d r)) l
              = map IngredientDict.to_dict
                  (flat_map
                     (fun k => filter
                                 (fun i => Ingredient.recipe_id i =? k)
                                 (ingredients d))
                     (map Recipe.id l))).
    { intros l. induction l as [|r l IH]; [reflexivity|].
      cbn [flat_map map]. rewrite map_app, IH. reflexivity. }
    rewrite E. apply Permutation_map.
    rewrite (partition_by_key Ingredient.recipe_id Z.eqb (ingredients d) _
               Z.eqb_eq Hpk).
    rewrite filter_all; [reflexivity|].
    intros i Hi. destruct (Hno i Hi) as [r [Hr' Hid]].
    apply existsb_exists. exists (Recipe.id r).
    split; [now apply in_map|lia].
Qed.

Lemma api_recipes_complete_witness :
  reachable Sample.db_ab
  /\ map RecipeDict.title (api_recipes Sample.db_ab) = ["A"; "B"]
  /\ Permutation
       (flat_map RecipeDict.ingredients (api_recipes Sample.db_ab))
       (map IngredientDict.to_dict (ingredients Sample.db_ab)).
Proof.
  split; [exact sample_reachable|].
  destruct (api_recipes_complete Sample.db_ab sample_reachable)
    as (_ & Ht & _ & _ & Hp).
  split; [rewrite Ht; reflexivity|exact Hp].
Defined.


(** ** [total_time] *)

(** X16.  The total time of a recipe is its preparation time plus its
    cooking time, a missing one counting as 0 (and a time of 0 staying
    0).  For a recipe that a create has just made it is the sum of the
    minutes submitted in the two time fields, a missing or empty field
    counting as 0. *)
Theorem total_time_of_created {N : PyNum} (now id : Z) (req : request)
    (d d' : DB) :
  (forall r,
     Recipe.total_time r
     = match Recipe.prep_time r with Some p => p | None => 0 end
       + match Recipe.cook_time r with Some c => c | None => 0 end)
  /\ (new_recipe now req d = inr (RedirectView id, d') ->
      exists r,
        query_get d' id = Some r
        /\ Recipe.total_time r
           = minutes "prep_time" (form req) + minutes "cook_time" (form req)).
Proof.
  assert (Htot : forall r,
            Recipe.total_time r
            = match Recipe.prep_time r with Some p => p | None => 0 end
              + match Recipe.cook_time r with Some c => c | None => 0 end).
  { intros r. unfold Recipe.total_time.
    destruct (Recipe.prep_time r) as [p|], (Recipe.cook_time r) as [c|];
      try destruct (Z.eqb_spec p 0); try destruct (Z.eqb_spec c 0); lia. }
  split; [exact Htot|].
  intros H.
  assert (Hm : method req = POST).
  { destruct (method req) eqn:Hm; [|reflexivity].
    unfold new_recipe in H. rewrite Hm in H. discriminate H. }
  destruct (new_recipe_post_inv now req d _ d' Hm H)
    as (title & servings & prep & cook & ings & r & _ & _ & Hp & Hc
        & _ & Hrec & Hresp & ->).
  injection Hresp as ->.
  assert (Hfresh : ~ In (Recipe.id r) (map Recipe.id (recipes d)))
    by (rewrite Hrec; apply next_id_fresh).
  exists r. split; [rewrite query_get_app_new, Z.eqb_refl; auto|].
  rewrite Htot.
  assert (Hmin : forall k v,
            opt_int_field k (form req) = inr v ->
            match v with Some m => m | None => 0 end
            = minutes k (form req)).
  { intros k v. unfold opt_int_field, minutes, int.
    destruct (MultiDict.get k (form req)) as [s|]; [|now intros [= <-]].
    destruct (Py.truthy s); [|now intros [= <-]].
    destruct (int_of_str s); simpl; [now intros [= <-]|discriminate]. }
  rewrite Hrec. simpl. now rewrite (Hmin _ _ Hp), (Hmin _ _ Hc).
Qed.

Lemma total_time_of_created_witness :
  new_recipe 50 (Sample.post Cases.form_timed) Sample.db_ab
  = inr (RedirectView 3,
         after Sample.db_ab
           (new_recipe 50 (Sample.post Cases.form_timed) Sample.db_ab))
  /\ exists r,
       query_get
         (after Sample.db_ab
            (new_recipe 50 (Sample.post Cases.form_timed) Sample.db_ab)) 3
       = Some r
       /\ Recipe.total_time r = 15.
Proof.
  assert (H : new_recipe 50 (Sample.post Cases.form_timed) Sample.db_ab
              = inr (RedirectView 3,
                     after Sample.db_ab
                       (new_recipe 50 (Sample.post Cases.form_timed)
                          Sample.db_ab)))
    by reflexivity.
  split; [exact H|].
  destruct (proj2 (total_time_of_created 50 3 (Sample.post Cases.form_timed)
                     Sample.db_ab _) H) as [r [Hq Ht]].
  exists r. split; [exact Hq|]. rewrite Ht. reflexivity.
Defined.
